(** * Overlap kernel, array store and orchestrator of [transposon/overlap.py]

    A shallow embedding of the overlap computation of the TE density
    program: the three kernel functions of class [Overlap], the array
    store [_OverlapDataSink] and the orchestrator [OverlapData], followed
    by the properties of the specification established (or refuted) on
    them.

    Conventions of the embedding.
    - The coordinate arrays are numpy arrays of unsigned 32-bit
      integers, as the importers cast them: their elements are integers
      ([Z]) in the range of [uint32] and the elementwise arithmetic of
      the kernel wraps modulo [2^32].
    - One-dimensional numpy arrays are lists; an elementwise operation on
      two arrays follows numpy's broadcasting rule and raises when the
      shapes are incompatible.
    - Python exceptions are the [Err] results of the [res] monad.
    - Dictionaries are [gmap]s; a dataset of the store is a nested list
      together with its declared shape. *)

From stdpp Require Import base numbers option list strings gmap fin_maps.

Local Open Scope Z_scope.

(** ** Exceptions *)

Inductive exn : Type :=
  | BroadcastError   (* numpy: operands could not be broadcast together *)
  | KeyError         (* lookup of an absent key *)
  | StoreError       (* the store rejects a selection or a value shape *)
  | FileError        (* the file of the store cannot be created *)
  | ChunkShapeError. (* the store rejects the chunk shape of a dataset *)

Inductive res (A : Type) : Type :=
  | Ok (a : A)
  | Err (e : exn).
Arguments Ok {A} a.
Arguments Err {A} e.

#[global] Instance res_ret : MRet res := fun _ a => Ok a.
#[global] Instance res_bind : MBind res := fun _ _ f r =>
  match r with Ok a => f a | Err e => Err e end.
#[global] Instance res_fmap : FMap res := fun _ _ f r =>
  match r with Ok a => Ok (f a) | Err e => Err e end.

Definition of_option {A} (e : exn) (o : option A) : res A :=
  match o with Some a => Ok a | None => Err e end.

(** Left-to-right loop with early exit on an exception: the body of a
    Python [for] statement run on each element in turn. *)
Fixpoint for_each {A St : Type} (body : St -> A -> res St) (xs : list A)
    (s : St) : res St :=
  match xs with
  | [] => Ok s
  | x :: xs' => s' ← body s x; for_each body xs' s'
  end.

(** ** numpy on one-dimensional arrays of [uint32] *)

(** The values of [uint32], and the reduction of an integer to them. *)
Definition u32 (z : Z) : Prop := 0 <= z < 2 ^ 32.
Definition wrap32 (z : Z) : Z := z mod 2 ^ 32.

Module np.

(** [np.maximum(c, a)] and [np.minimum(c, a)] with a scalar [c] within
    the range of the element type; the result keeps the element type. *)
Definition maximum (c : Z) (a : list Z) : list Z := Z.max c <$> a.
Definition minimum (c : Z) (a : list Z) : list Z := Z.min c <$> a.

(** Elementwise binary operation on two arrays.  Shapes [(n,)] and
    [(m,)] are compatible when [n = m] or one of them is 1, in which
    case the single element is repeated. *)
Definition broadcast2 (f : Z -> Z -> Z) (a b : list Z) : res (list Z) :=
  match a, b with
  | [x], _ => Ok (f x <$> b)
  | _, [y] => Ok ((fun x => f x y) <$> a)
  | _, _ =>
      if decide (length a = length b) then Ok (zip_with f a b)
      else Err BroadcastError
  end.

(** [a - b] on two arrays of [uint32]: the difference wraps. *)
Definition subtract : list Z -> list Z -> res (list Z) :=
  broadcast2 (fun x y => wrap32 (x - y)).

(** [a + c] with a scalar [c] on an array of [uint32]: the sum wraps. *)
Definition add_scalar (a : list Z) (c : Z) : list Z :=
  (fun x => wrap32 (x + c)) <$> a.

End np.

(** ** Data model *)

(** One gene: [gene_datum.start], [gene_datum.stop], values of [uint32]
    ([u32_gene]). *)
Record GeneDatum : Type := { start : Z; stop : Z }.

Definition u32_gene (g : GeneDatum) : Prop := u32 (start g) /\ u32 (stop g).

(** Modelled from the spec: the window methods of the gene datum
    ([win_length], [left_win_start], [left_win_stop], [right_win_start],
    [right_win_stop]) belong to the data module, which is not part of
    these sources.  The specification gives: the effective window size,
    truncated to [start - 0] when the naive window start would be
    negative; the left window start [max(0, start - window)]; the left
    window stop [start - 1]; the right window start [stop + 1]; the right
    window stop [stop + window]. *)
Definition win_length (g : GeneDatum) (window : Z) : Z :=
  if decide (start g - window < 0) then start g - 0 else window.
Definition left_win_start (g : GeneDatum) (window : Z) : Z :=
  Z.max 0 (start g - window).
Definition left_win_stop (g : GeneDatum) : Z := start g - 1.
Definition right_win_start (g : GeneDatum) : Z := stop g + 1.
Definition right_win_stop (g : GeneDatum) (window : Z) : Z := stop g + window.

(** [validate_window] of [density.py]: the window shrinks to the gene
    start when the clamped window start is 0. *)
Definition validate_window (window_start g0 window : Z) : Z :=
  if decide (window_start = 0) then g0 - window_start else window.

(** Modelled from the spec: the collection [TransposonData] belongs to
    the data module, which is not part of these sources.  The
    specification gives parallel arrays [starts] and [stops], sequences
    of [uint32] (the importers cast both columns to [uint32]): lists of
    integers, within the range of [uint32] in a well-formed collection
    ([u32_arrays]). *)
Record TransposonData : Type := { starts : list Z; stops : list Z }.

Definition u32_arrays (t : TransposonData) : Prop :=
  Forall u32 (starts t) /\ Forall u32 (stops t).

(** Modelled from the spec: [number_elements] is a property of the data
    module; the specification gives [number_elements = len(starts)]. *)
Definition number_elements (t : TransposonData) : nat := length (starts t).

(** The collection as [density.py] reads it: the coordinate arrays and
    the array of element lengths. *)
Record TransposonColumns : Type :=
  { coordinates : TransposonData; lengths : list Z }.

(** The outcome of [check_shape]: it returns, or raises [ValueError] with
    a message naming the second field and showing two shapes. *)
Inductive ShapeCheck : Type :=
  | ShapesAgree
  | MissingFields (field : string) (shape_shown_1 shape_shown_2 : nat).

(** [check_shape] of [density.py]; the shape of a one-dimensional array
    is its length.  Both messages are formatted with the shapes of
    [starts] and [stops]. *)
Definition check_shape (transposon_data : TransposonColumns) : ShapeCheck :=
  let start := length (starts (coordinates transposon_data)) in
  let stop := length (stops (coordinates transposon_data)) in
  if decide (start ≠ stop) then MissingFields "stops" start stop
  else
    let length_ := length (lengths transposon_data) in
    if decide (start ≠ length_) then MissingFields "lengths" start stop
    else ShapesAgree.

(** ** The overlap kernel: class [Overlap] *)

Module Overlap.

Definition left (gene_datum : GeneDatum) (transposons : TransposonData)
    (window : Z) : res (list Z) :=
  let w_len := win_length gene_datum window in
  let w_0 := left_win_start gene_datum w_len in
  let w_1 := left_win_stop gene_datum in
  let lower_bound := np.maximum w_0 (starts transposons) in
  let upper_bound := np.minimum w_1 (stops transposons) in
  d ← np.subtract upper_bound lower_bound;
  Ok (np.maximum 0 (np.add_scalar d 1)).

Definition intra (gene_datum : GeneDatum) (transposons : TransposonData)
    : res (list Z) :=
  let g_0 := start gene_datum in
  let g_1 := stop gene_datum in
  let lower_bound := np.minimum g_0 (stops transposons) in
  let upper_bound := np.maximum g_1 (starts transposons) in
  d ← np.subtract lower_bound upper_bound;
  Ok (np.maximum 0 (np.add_scalar d 1)).

Definition right (gene_datum : GeneDatum) (transposons : TransposonData)
    (window : Z) : res (list Z) :=
  let w_0 := right_win_start gene_datum in
  let w_len := win_length gene_datum window in
  let w_1 := right_win_stop gene_datum w_len in
  let lower_bound := np.maximum w_0 (starts transposons) in
  let upper_bound := np.minimum w_1 (stops transposons) in
  d ← np.subtract upper_bound lower_bound;
  Ok (np.maximum 0 (np.add_scalar d 1)).

End Overlap.

(** The overlap of one element with the inclusive region [[r0, r1]], the
    formula of the specification. *)
Definition overlap_formula (r0 r1 : Z) (te_start te_stop : Z) : Z :=
  Z.max 0 (Z.min r1 te_stop - Z.max r0 te_start + 1).

(** The value computed by [Overlap.left] and [Overlap.right] for one
    element and the region [[r0, r1]]: the difference of the clipped
    bounds and the sum with 1 are taken in [uint32]. *)
Definition overlap_uint32 (r0 r1 : Z) (te_start te_stop : Z) : Z :=
  Z.max 0 (wrap32 (wrap32 (Z.min r1 te_stop - Z.max r0 te_start) + 1)).

(** The value computed by [Overlap.intra]: the gene start is paired with
    the element stops and the gene stop with the element starts. *)
Definition intra_formula (g_0 g_1 : Z) (te_start te_stop : Z) : Z :=
  Z.max 0 (wrap32 (wrap32 (Z.min g_0 te_stop - Z.max g_1 te_start) + 1)).

(** The scalar bounds that [Overlap.left] and [Overlap.right] give to
    [np.maximum] and [np.minimum] are within the range of [uint32]. *)
Definition left_region_u32 (g : GeneDatum) (window : Z) : Prop :=
  u32 (left_win_start g (win_length g window)) /\ u32 (left_win_stop g).
Definition right_region_u32 (g : GeneDatum) (window : Z) : Prop :=
  u32 (right_win_start g) /\ u32 (right_win_stop g (win_length g window)).

(** ** The array store: class [_OverlapDataSink] *)

(** The object built by [__init__]: the three dimensions (the file path
    plays no role in the values stored). *)
Record _OverlapDataSink : Type :=
  { _n_genes : nat; _n_tes : nat; _n_win : nat }.

(** Where a write lands: the dataset and the selected row. *)
Inductive Direction : Type := LEFT | INTRA | RIGHT.

Record Write : Type :=
  { w_dataset : Direction; w_gene : nat; w_window : option nat }.

Section Store.

(** The element type of the datasets ([dtype], 32-bit floats in the
    source) and the conversion applied to a value when it is stored. *)
Context {F : Type} (cast : Z -> F).

(** Whether a file can be created in the output directory of the store
    ([DEFAULT_OUTPUT_DIR], since [_reset] gives no other). *)
Context (output_dir_ok : bool).

(** A dataset: its declared shape and its contents, row major. *)
Record Dataset3 : Type :=
  { shape3 : nat * nat * nat; data3 : list (list (list F)) }.
Record Dataset2 : Type :=
  { shape2 : nat * nat; data2 : list (list F) }.

(** A chunk shape is accepted for a dataset of fixed shape when every
    chunk dimension is positive, none exceeds the dataset's, and one
    chunk of elements of 4 bytes ([dtype] is [np.float32]) takes less
    than 4 GiB, the largest chunk of the file format. *)
Definition chunks_fit (shape chunks : nat * nat * nat) : Prop :=
  let '(n0, n1, n2) := shape in
  let '(c0, c1, c2) := chunks in
  (0 < c0 <= n0 /\ 0 < c1 <= n1 /\ 0 < c2 <= n2)%nat
  /\ 4 * (Z.of_nat c0 * Z.of_nat c1 * Z.of_nat c2) < 2 ^ 32.

#[global] Instance chunks_fit_dec shape chunks : Decision (chunks_fit shape chunks).
Proof.
  destruct shape as [[n0 n1] n2], chunks as [[c0 c1] c2]. simpl. apply _.
Defined.

(** [create_dataset] with an explicit chunk shape: the store raises when
    the chunk shape does not fit; a new dataset holds the fill value 0
    everywhere. *)
Definition create_dataset3 (shape chunks : nat * nat * nat) : res Dataset3 :=
  let '(n0, n1, n2) := shape in
  if decide (chunks_fit shape chunks) then
    Ok {| shape3 := shape;
          data3 := replicate n0 (replicate n1 (replicate n2 (cast 0))) |}
  else Err ChunkShapeError.

(** [create_dataset] without a chunk shape: the store chooses one.  It is
    reached in [__enter__] only after the two datasets above were
    created, with positive dimensions. *)
Definition create_dataset2 (shape : nat * nat) : Dataset2 :=
  let '(n0, n1) := shape in
  {| shape2 := shape; data2 := replicate n0 (replicate n1 (cast 0)) |}.

(** The opened file: the three datasets, and the journal of the writes
    issued so far (ghost state, used to state which slices were
    written). *)
Record H5File : Type :=
  { left : Dataset3; right : Dataset3; intra : Dataset2;
    journal : list Write }.

Definition left_right_slice (window gene : nat) : nat * nat := (gene, window).
Definition intra_slice (gene : nat) : nat := gene.

(** [__enter__]: the file is created, then the datasets [left] and
    [right] with the chunk shape [(32, n_win, n_tes)], then [intra]. *)
Definition enter (self : _OverlapDataSink) : res H5File :=
  if output_dir_ok then
    let lr_shape := (_n_genes self, _n_win self, _n_tes self) in
    l ← create_dataset3 lr_shape (32%nat, _n_win self, _n_tes self);
    r ← create_dataset3 lr_shape (32%nat, _n_win self, _n_tes self);
    let i_shape := (_n_genes self, _n_tes self) in
    Ok {| left := l; right := r; intra := create_dataset2 i_shape;
          journal := [] |}
  else Err FileError.

(** The value assigned to a selection of [n] elements: a vector of [n]
    elements is stored as it is, a vector of one element is repeated,
    any other shape is rejected. *)
Definition assign_row (n : nat) (v : list Z) : res (list F) :=
  if decide (length v = n) then Ok (cast <$> v)
  else match v with
       | [x] => Ok (replicate n (cast x))
       | _ => Err StoreError
       end.

(** [dset[gene, window, :] = v] *)
Definition setitem3 (d : Dataset3) (destination : nat * nat) (v : list Z)
    : res Dataset3 :=
  let '(gene, window) := destination in
  let '(n0, n1, n2) := shape3 d in
  if decide (gene < n0 ∧ window < n1)%nat then
    row ← assign_row n2 v;
    Ok {| shape3 := shape3 d;
          data3 := alter (fun plane => <[window := row]> plane) gene (data3 d) |}
  else Err StoreError.

(** [dset[gene, :] = v] *)
Definition setitem2 (d : Dataset2) (destination : nat) (v : list Z)
    : res Dataset2 :=
  let '(n0, n1) := shape2 d in
  if decide (destination < n0)%nat then
    row ← assign_row n1 v;
    Ok {| shape2 := shape2 d; data2 := <[destination := row]> (data2 d) |}
  else Err StoreError.

Definition set_left (destination : nat * nat) (v : list Z) (sink : H5File)
    : res H5File :=
  d ← setitem3 (left sink) destination v;
  Ok {| left := d; right := right sink; intra := intra sink;
        journal := journal sink ++
          [{| w_dataset := LEFT; w_gene := destination.1;
              w_window := Some destination.2 |}] |}.

Definition set_right (destination : nat * nat) (v : list Z) (sink : H5File)
    : res H5File :=
  d ← setitem3 (right sink) destination v;
  Ok {| left := left sink; right := d; intra := intra sink;
        journal := journal sink ++
          [{| w_dataset := RIGHT; w_gene := destination.1;
              w_window := Some destination.2 |}] |}.

Definition set_intra (destination : nat) (v : list Z) (sink : H5File)
    : res H5File :=
  d ← setitem2 (intra sink) destination v;
  Ok {| left := left sink; right := right sink; intra := d;
        journal := journal sink ++
          [{| w_dataset := INTRA; w_gene := destination;
              w_window := None |}] |}.

(** Reading back one row of a dataset. *)
Definition getitem3 (d : Dataset3) (gene window : nat) : option (list F) :=
  plane ← data3 d !! gene; plane !! window.
Definition getitem2 (d : Dataset2) (gene : nat) : option (list F) :=
  data2 d !! gene.

(** ** The orchestrator: class [OverlapData] *)

(** Modelled from the spec: the gene collection [GeneData] belongs to
    the data module, which is not part of these sources.  Names are
    unique per chromosome; [names] are the names present and
    [get_gene(name)] is the datum of that name. *)
Definition names (genes : gmap string GeneDatum) : gset string := dom genes.
Definition get_gene (genes : gmap string GeneDatum) (name : string)
    : res GeneDatum :=
  of_option KeyError (genes !! name).

(** Records of the logger. *)
Inductive LogRecord : Type :=
  | InvalidGeneName (name : string)
  | InvalidWindow (window : Z).

Record OverlapData : Type :=
  { _data : _OverlapDataSink;
    _windows : list Z;
    _gene_names : list string;
    _gene_name_2_idx : gmap string nat;
    _window_2_idx : gmap Z nat }.

(** The generators [_filter_gene_names] and [_filter_windows]: the
    records logged and the values yielded, both in request order. *)
Fixpoint _filter_gene_names (gene_names_requested : list string)
    (gene_names_available : gset string) : list LogRecord * list string :=
  match gene_names_requested with
  | [] => ([], [])
  | name :: rest =>
      let '(logged, yielded) :=
        _filter_gene_names rest gene_names_available in
      if decide (name ∉ gene_names_available)
      then (InvalidGeneName name :: logged, yielded)
      else (logged, name :: yielded)
  end.

Fixpoint _filter_windows (windows : list Z) : list LogRecord * list Z :=
  match windows with
  | [] => ([], [])
  | window :: rest =>
      let '(logged, yielded) := _filter_windows rest in
      if decide (window < 0)
      then (InvalidWindow window :: logged, yielded)
      else (logged, window :: yielded)
  end.

(** [{key: idx for idx, key in enumerate(keys)}], counting from [idx]:
    a later binding of a key replaces an earlier one. *)
Fixpoint dict_enumerate `{Countable K} (idx : nat) (keys : list K)
    (d : gmap K nat) : gmap K nat :=
  match keys with
  | [] => d
  | key :: rest => dict_enumerate (S idx) rest (<[key := idx]> d)
  end.

Definition _map_gene_names_2_indices (gene_names : list string)
    : gmap string nat := dict_enumerate 0 gene_names ∅.
Definition _map_windows_2_indices (windows : list Z) : gmap Z nat :=
  dict_enumerate 0 windows ∅.

Definition _reset (transposons : TransposonData)
    (genes : gmap string GeneDatum) (windows : list Z)
    (gene_names : list string) : list LogRecord * OverlapData :=
  let '(log_names, gene_names_filtered) :=
    _filter_gene_names gene_names (names genes) in
  let '(log_windows, windows_filtered) := _filter_windows windows in
  let n_win := length windows_filtered in
  let n_gene := length gene_names_filtered in
  let n_te := number_elements transposons in
  (log_names ++ log_windows,
   {| _data := {| _n_genes := n_gene; _n_tes := n_te; _n_win := n_win |};
      _windows := windows_filtered;
      _gene_names := gene_names_filtered;
      _gene_name_2_idx := _map_gene_names_2_indices gene_names_filtered;
      _window_2_idx := _map_windows_2_indices windows_filtered |}).

(** The body of the loop over the windows, for one gene. *)
Definition window_body (self : OverlapData) (gene_datum : GeneDatum)
    (transposons : TransposonData) (g_idx : nat)
    (sink : H5File) (window : Z) : res H5File :=
  l ← Overlap.left gene_datum transposons window;
  r ← Overlap.right gene_datum transposons window;
  w_idx ← of_option KeyError (_window_2_idx self !! window);
  let destination := left_right_slice w_idx g_idx in
  sink ← set_left destination l sink;
  set_right destination r sink.

(** The body of the loop over the gene names. *)
Definition gene_body (self : OverlapData) (genes : gmap string GeneDatum)
    (transposons : TransposonData)
    (sink : H5File) (gene_name : string) : res H5File :=
  gene_datum ← get_gene genes gene_name;
  g_idx ← of_option KeyError (_gene_name_2_idx self !! gene_name);
  let destination := intra_slice g_idx in
  v ← Overlap.intra gene_datum transposons;
  sink ← set_intra destination v sink;
  for_each (window_body self gene_datum transposons g_idx)
           (_windows self) sink.

(** [calculate]: the records logged, and either the exception raised or
    the final state of the orchestrator with the contents of the file
    at the time it is closed.  The progress callback, which does not
    touch the store, is left out. *)
Definition calculate (genes : gmap string GeneDatum)
    (transposons : TransposonData) (windows : list Z)
    (gene_names : list string)
    : list LogRecord * res (OverlapData * H5File) :=
  let '(log, self) := _reset transposons genes windows gene_names in
  (log,
   sink ← enter (_data self);
   sink ← for_each (gene_body self genes transposons) (_gene_names self)
                   sink;
   Ok (self, sink)).


(** ** A small chromosome

    Two genes and two transposable elements, used for the concrete
    instances of the properties below. *)

Definition demo_genes : gmap string GeneDatum :=
  <["g1" := {| start := 100; stop := 200 |}]>
    (<["g2" := {| start := 50; stop := 300 |}]> ∅).

Definition demo_tes : TransposonData :=
  {| starts := [180; 10]; stops := [220; 60] |}.

(** A chromosome of 32 genes, the least number on which the store
    opens: gene number [i] spans [1000 i + 100 .. 1000 i + 300]. *)
Definition chromosome_names : list string :=
  [ "gene00"; "gene01"; "gene02"; "gene03"; "gene04"; "gene05";
    "gene06"; "gene07"; "gene08"; "gene09"; "gene10"; "gene11";
    "gene12"; "gene13"; "gene14"; "gene15"; "gene16"; "gene17";
    "gene18"; "gene19"; "gene20"; "gene21"; "gene22"; "gene23";
    "gene24"; "gene25"; "gene26"; "gene27"; "gene28"; "gene29";
    "gene30"; "gene31" ].

Definition chromosome_genes : gmap string GeneDatum :=
  list_to_map
    (imap (fun i name =>
             (name, {| start := 1000 * Z.of_nat i + 100;
                       stop := 1000 * Z.of_nat i + 300 |}))
          chromosome_names).

(** ** Invariants of the store *)

(** The contents of a dataset agree with its declared shape. *)
Definition wf3 (d : Dataset3) : Prop :=
  length (data3 d) = (shape3 d).1.1
  /\ Forall (fun plane => length plane = (shape3 d).1.2
                          /\ Forall (fun row => length row = (shape3 d).2) plane)
            (data3 d).
Definition wf2 (d : Dataset2) : Prop :=
  length (data2 d) = (shape2 d).1
  /\ Forall (fun row => length row = (shape2 d).2) (data2 d).

(** The file opened on [dims]: the datasets have the shapes given at
    construction and contents of those shapes. *)
Definition sink_inv (dims : _OverlapDataSink) (sink : H5File) : Prop :=
  shape3 (left sink) = (_n_genes dims, _n_win dims, _n_tes dims)
  /\ shape3 (right sink) = (_n_genes dims, _n_win dims, _n_tes dims)
  /\ shape2 (intra sink) = (_n_genes dims, _n_tes dims)
  /\ wf3 (left sink) /\ wf3 (right sink) /\ wf2 (intra sink).

(** The store can be opened on [dims]: the file can be created and the
    chunk shape [(32, n_win, n_tes)] fits the shape of [left] and
    [right]: at least 32 genes, at least one window and one element,
    and a chunk of [32 * n_win * n_tes] elements of 4 bytes below
    4 GiB. *)
Definition opens (dims : _OverlapDataSink) : Prop :=
  output_dir_ok = true
  /\ (32 <= _n_genes dims)%nat /\ (0 < _n_win dims)%nat
  /\ (0 < _n_tes dims)%nat
  /\ 4 * (32 * Z.of_nat (_n_win dims) * Z.of_nat (_n_tes dims)) < 2 ^ 32.

(** The rows of gene index [g] are the same in both files. *)
Definition same_rows (g : nat) (s s' : H5File) : Prop :=
  data3 (left s') !! g = data3 (left s) !! g
  /\ data3 (right s') !! g = data3 (right s) !! g
  /\ data2 (intra s') !! g = data2 (intra s) !! g.

(** [s'] results from [s] by writes that all land on a row satisfying
    [R], every other row being left as it was. *)
Definition writes_within (R : nat -> Prop) (s s' : H5File) : Prop :=
  (exists new, journal s' = journal s ++ new
               /\ Forall (fun e => R (w_gene e)) new)
  /\ forall g, ~ R g -> same_rows g s s'.


(** ** What the store holds for a gene and a window *)

(** The rows of gene index [g_idx] and window [window] hold the left and
    right overlaps of the gene. *)
Definition window_stored (self : OverlapData) (gene_datum : GeneDatum)
    (transposons : TransposonData) (g_idx : nat) (sink : H5File)
    (window : Z) : Prop :=
  exists (w_idx : nat) (l r : list Z),
    _window_2_idx self !! window = Some w_idx
    /\ Overlap.left gene_datum transposons window = Ok l
    /\ Overlap.right gene_datum transposons window = Ok r
    /\ getitem3 (left sink) g_idx w_idx = Some (cast <$> l)
    /\ getitem3 (right sink) g_idx w_idx = Some (cast <$> r).

(** The rows of the gene named [gene_name] hold its intra overlap and,
    for every window processed, its left and right overlaps. *)
Definition gene_stored (self : OverlapData) (genes : gmap string GeneDatum)
    (transposons : TransposonData) (gene_name : string) (sink : H5File)
    : Prop :=
  exists (gene_datum : GeneDatum) (g_idx : nat) (i : list Z),
    genes !! gene_name = Some gene_datum
    /\ _gene_name_2_idx self !! gene_name = Some g_idx
    /\ Overlap.intra gene_datum transposons = Ok i
    /\ getitem2 (intra sink) g_idx = Some (cast <$> i)
    /\ forall window, window ∈ _windows self ->
         window_stored self gene_datum transposons g_idx sink window.

(** The state built by [_reset] from lists already filtered. *)
Definition indexed (self : OverlapData) (transposons : TransposonData)
    : Prop :=
  _gene_name_2_idx self = _map_gene_names_2_indices (_gene_names self)
  /\ _window_2_idx self = _map_windows_2_indices (_windows self)
  /\ _data self = {| _n_genes := length (_gene_names self);
                     _n_tes := number_elements transposons;
                     _n_win := length (_windows self) |}.


(** ** Requests extended with invalid entries *)

(** [with_invalid valid l l']: the list [l'] is [l] with entries that are
    not [valid] added at any positions. *)
Inductive with_invalid {A : Type} (valid : A -> Prop) : list A -> list A -> Prop :=
  | with_invalid_nil : with_invalid valid [] []
  | with_invalid_keep x l l' :
      with_invalid valid l l' -> with_invalid valid (x :: l) (x :: l')
  | with_invalid_add x l l' :
      ~ valid x -> with_invalid valid l l' -> with_invalid valid l (x :: l').


(** ** The writes of one run *)

(** The writes issued for one gene name: the intra row, then for every
    window the left row and the right row. *)
Definition window_writes (self : OverlapData) (g_idx : nat) (window : Z)
    : list Write :=
  match _window_2_idx self !! window with
  | Some w_idx =>
      [ {| w_dataset := LEFT; w_gene := g_idx; w_window := Some w_idx |};
        {| w_dataset := RIGHT; w_gene := g_idx; w_window := Some w_idx |} ]
  | None => []
  end.

Definition gene_writes (self : OverlapData) (gene_name : string)
    : list Write :=
  match _gene_name_2_idx self !! gene_name with
  | Some g_idx =>
      {| w_dataset := INTRA; w_gene := g_idx; w_window := None |}
        :: concat (window_writes self g_idx <$> _windows self)
  | None => []
  end.


(** * Properties *)

(** ** The [res] monad and the loop *)

Lemma bind_Ok {A B} (r : res A) (f : A -> res B) (b : B) :
  r ≫= f = Ok b <-> exists a, r = Ok a /\ f a = Ok b.
Proof.
  destruct r as [a|e]; simpl.
  - split; [eauto | intros (a' & [= ->] & H); exact H].
  - split; [discriminate | intros (a' & [=] & _)].
Qed.

Lemma of_option_Ok {A} (e : exn) (o : option A) (a : A) :
  of_option e o = Ok a <-> o = Some a.
Proof. destruct o; simpl; split; congruence. Qed.

(** An invariant of the body is an invariant of the loop. *)
Lemma for_each_invariant {A St} (body : St -> A -> res St) (I : St -> Prop)
    (xs : list A) :
  (forall x s s', x ∈ xs -> I s -> body s x = Ok s' -> I s') ->
  forall s s', I s -> for_each body xs s = Ok s' -> I s'.
Proof.
  induction xs as [|x xs IH]; intros Hstep s s' Hs Hrun; simpl in Hrun.
  - congruence.
  - apply bind_Ok in Hrun as (s1 & Hb & Hrest).
    eapply IH; [ | | exact Hrest].
    + intros y t t' Hy. apply Hstep. by right.
    + eapply Hstep; [by left | exact Hs | exact Hb].
Qed.

(** A loop whose body never raises under the invariant never raises. *)
Lemma for_each_total {A St} (body : St -> A -> res St) (I : St -> Prop)
    (xs : list A) :
  (forall x s, x ∈ xs -> I s -> exists s', body s x = Ok s' /\ I s') ->
  forall s, I s -> exists s', for_each body xs s = Ok s' /\ I s'.
Proof.
  induction xs as [|x xs IH]; intros Hstep s Hs; simpl.
  - eauto.
  - destruct (Hstep x s) as (s1 & Hb & Hs1); [by left | done |].
    rewrite Hb. simpl. apply IH; [ | done].
    intros y t Hy. apply Hstep. by right.
Qed.

(** What every element establishes, and every later element preserves,
    holds of every element when the loop ends. *)
Lemma for_each_establishes {A St} (body : St -> A -> res St)
    (I : St -> Prop) (P : A -> St -> Prop) (xs : list A) :
  (forall x s s', x ∈ xs -> I s -> body s x = Ok s' -> I s' /\ P x s') ->
  (forall x y s s', x ∈ xs -> y ∈ xs -> I s -> P x s -> body s y = Ok s' ->
                    P x s') ->
  forall s s', I s -> for_each body xs s = Ok s' ->
               I s' /\ forall x, x ∈ xs -> P x s'.
Proof.
  intros Hest Hpres s s' Hs Hrun.
  assert (Hgen : forall done todo t,
             done ++ todo = xs -> I t -> (forall x, x ∈ done -> P x t) ->
             for_each body todo t = Ok s' ->
             I s' /\ forall x, x ∈ xs -> P x s').
  { intros done todo. revert done.
    induction todo as [|y todo IH]; intros done t Hsplit Ht Hdone Hloop.
    - simpl in Hloop. injection Hloop as <-.
      rewrite app_nil_r in Hsplit. subst done. done.
    - simpl in Hloop. apply bind_Ok in Hloop as (t1 & Hb & Hrest).
      assert (Hy : y ∈ xs).
      { rewrite <- Hsplit. apply elem_of_app. right. by left. }
      destruct (Hest y t t1 Hy Ht Hb) as [Ht1 HPy].
      apply (IH (done ++ [y]) t1); [ | done | | done].
      + by rewrite <- app_assoc.
      + intros x Hx. apply elem_of_app in Hx as [Hx|Hx].
        * apply (Hpres x y t t1); try done.
          -- rewrite <- Hsplit. apply elem_of_app. by left.
          -- by apply Hdone.
        * apply list_elem_of_singleton in Hx as ->. done. }
  apply (Hgen [] xs s); try done.
  intros x Hx. by apply not_elem_of_nil in Hx.
Qed.

(** ** The kernel *)

Lemma broadcast2_same_length (f : Z -> Z -> Z) (a b : list Z) :
  length a = length b -> np.broadcast2 f a b = Ok (zip_with f a b).
Proof.
  intros Hlen. unfold np.broadcast2.
  destruct a as [|x [|x' a]], b as [|y [|y' b]]; simpl in *; try done.
  by rewrite decide_True by (simpl; lia).
Qed.

(** Incompatible shapes: the subtraction raises. *)
Lemma broadcast2_mismatch (f : Z -> Z -> Z) (a b : list Z) :
  length a ≠ length b -> length a ≠ 1%nat -> length b ≠ 1%nat ->
  np.broadcast2 f a b = Err BroadcastError.
Proof.
  intros Hne Ha Hb. unfold np.broadcast2.
  destruct a as [|x [|x' a]], b as [|y [|y' b]]; simpl in *; try done;
    by rewrite decide_False by (simpl; lia).
Qed.

(** The length of a broadcast result. *)
Lemma broadcast2_length (f : Z -> Z -> Z) (a b v : list Z) :
  np.broadcast2 f a b = Ok v ->
  (length v = length a /\ (length b = length a \/ length b = 1%nat)) \/
  (length a = 1%nat /\ length v = length b).
Proof.
  unfold np.broadcast2.
  destruct a as [|x [|x' a]], b as [|y [|y' b]]; simpl;
    repeat case_decide; intros [= <-]; simpl;
    rewrite ?length_fmap, ?length_zip_with; simpl in *; lia.
Qed.

(** *** Arithmetic of [uint32] *)

Lemma wrap32_range (z : Z) : u32 (wrap32 z).
Proof. unfold u32, wrap32. apply Z.mod_pos_bound. lia. Qed.

Lemma wrap32_succ (a : Z) : wrap32 (wrap32 a + 1) = wrap32 (a + 1).
Proof. unfold wrap32. apply Zplus_mod_idemp_l. Qed.

Lemma wrap32_small (z : Z) : u32 z -> wrap32 z = z.
Proof. unfold u32, wrap32. intros H. by apply Z.mod_small. Qed.

Lemma wrap32_negative (z : Z) : - 2 ^ 32 <= z < 0 -> wrap32 z = 2 ^ 32 + z.
Proof.
  unfold wrap32. intros H.
  replace z with ((2 ^ 32 + z) + (-1) * 2 ^ 32) at 1 by lia.
  rewrite Z_mod_plus_full. apply Z.mod_small. lia.
Qed.

(** An element that meets the region, or touches it, gets the value of
    the formula of the specification. *)
Lemma overlap_uint32_meets (r0 r1 s e : Z) :
  0 <= Z.min r1 e - Z.max r0 s + 1 < 2 ^ 32 ->
  overlap_uint32 r0 r1 s e = Z.min r1 e - Z.max r0 s + 1
  /\ overlap_uint32 r0 r1 s e = overlap_formula r0 r1 s e.
Proof.
  intros H. unfold overlap_uint32, overlap_formula.
  rewrite wrap32_succ, wrap32_small by done. lia.
Qed.

(** An element apart from the region gets [2^32] less the gap. *)
Lemma overlap_uint32_apart (r0 r1 s e : Z) :
  - 2 ^ 32 <= Z.min r1 e - Z.max r0 s + 1 < 0 ->
  overlap_uint32 r0 r1 s e = 2 ^ 32 + (Z.min r1 e - Z.max r0 s + 1).
Proof.
  intros H. unfold overlap_uint32.
  rewrite wrap32_succ, wrap32_negative by done. lia.
Qed.

(** The value computed by [left] and [right], element by element, on
    arrays of equal length. *)
Lemma clip_zip (r0 r1 : Z) (ss es : list Z) :
  np.maximum 0
    (np.add_scalar
       (zip_with (fun x y => wrap32 (x - y))
                 (np.minimum r1 es) (np.maximum r0 ss)) 1)
  = zip_with (overlap_uint32 r0 r1) ss es.
Proof.
  unfold np.maximum, np.minimum, np.add_scalar.
  revert es. induction ss as [|s ss IH]; intros [|e es]; simpl; try done.
  f_equal. apply IH.
Qed.

Lemma left_equal_length (g : GeneDatum) (t : TransposonData) (window : Z) :
  length (starts t) = length (stops t) ->
  Overlap.left g t window =
    Ok (zip_with (overlap_uint32 (left_win_start g (win_length g window))
                                 (left_win_stop g))
                 (starts t) (stops t)).
Proof.
  intros Hlen. unfold Overlap.left, np.subtract.
  rewrite broadcast2_same_length.
  - simpl. by rewrite clip_zip.
  - unfold np.minimum, np.maximum. by rewrite !length_fmap.
Qed.

Lemma right_equal_length (g : GeneDatum) (t : TransposonData) (window : Z) :
  length (starts t) = length (stops t) ->
  Overlap.right g t window =
    Ok (zip_with (overlap_uint32 (right_win_start g)
                                 (right_win_stop g (win_length g window)))
                 (starts t) (stops t)).
Proof.
  intros Hlen. unfold Overlap.right, np.subtract.
  rewrite broadcast2_same_length.
  - simpl. by rewrite clip_zip.
  - unfold np.minimum, np.maximum. by rewrite !length_fmap.
Qed.

Lemma intra_equal_length (g : GeneDatum) (t : TransposonData) :
  length (starts t) = length (stops t) ->
  Overlap.intra g t =
    Ok (zip_with (intra_formula (start g) (stop g)) (starts t) (stops t)).
Proof.
  intros Hlen. unfold Overlap.intra, np.subtract.
  rewrite broadcast2_same_length.
  - simpl. f_equal. unfold np.maximum, np.minimum, np.add_scalar.
    revert Hlen. generalize (stops t).
    induction (starts t) as [|s ss IH]; intros [|e es] Hlen; simpl in *;
      try done.
    f_equal. apply IH. lia.
  - unfold np.minimum, np.maximum. by rewrite !length_fmap.
Qed.

Lemma zip_with_lookup_Z (f : Z -> Z -> Z) (ss es : list Z) (i : nat) (s e : Z) :
  ss !! i = Some s -> es !! i = Some e -> zip_with f ss es !! i = Some (f s e).
Proof. intros Hs He. rewrite lookup_zip_with, Hs. simpl. by rewrite He. Qed.

Lemma kernel_length (g : GeneDatum) (t : TransposonData) (window : Z)
    (v : list Z) :
  Overlap.left g t window = Ok v \/ Overlap.right g t window = Ok v \/
  Overlap.intra g t = Ok v ->
  (length v = length (stops t) /\
   (length (starts t) = length (stops t) \/ length (starts t) = 1%nat)) \/
  (length (stops t) = 1%nat /\ length v = length (starts t)).
Proof.
  unfold Overlap.left, Overlap.right, Overlap.intra, np.subtract.
  intros [H|[H|H]]; apply bind_Ok in H as (d & Hd & [= <-]);
    apply broadcast2_length in Hd;
    unfold np.maximum, np.minimum, np.add_scalar in *;
    rewrite ?length_fmap in *; lia.
Qed.

Lemma kernel_nonneg (g : GeneDatum) (t : TransposonData) (window : Z)
    (v : list Z) :
  Overlap.left g t window = Ok v \/ Overlap.right g t window = Ok v \/
  Overlap.intra g t = Ok v ->
  Forall (fun x => 0 <= x) v.
Proof.
  unfold Overlap.left, Overlap.right, Overlap.intra.
  intros [H|[H|H]]; apply bind_Ok in H as (d & _ & [= <-]);
    unfold np.maximum; apply Forall_fmap, Forall_true; intros x; simpl; lia.
Qed.

Lemma u32_arrays_lookup (t : TransposonData) (i : nat) (s e : Z) :
  u32_arrays t -> starts t !! i = Some s -> stops t !! i = Some e ->
  u32 s /\ u32 e.
Proof.
  intros [Hs He] His Hie. split.
  - by eapply (proj1 (Forall_lookup _ _) Hs).
  - by eapply (proj1 (Forall_lookup _ _) He).
Qed.

(** C1 (code defect). In the scenario of the specification, a gene with
    start 100 and stop 200 and an element with start 180 and stop 220,
    [Overlap.intra] returns 4294967197, where the formula of the
    specification,
    [max(0, min(gene.stop, te.stop) - max(gene.start, te.start) + 1)],
    gives 21: the kernel takes the minimum of the gene start with the
    element stops and the maximum of the gene stop with the element
    starts, and their difference, [100 - 200], wraps in [uint32]. *)
Theorem intra_scenario_swapped_bounds :
  Overlap.intra {| start := 100; stop := 200 |}
                {| starts := [180]; stops := [220] |} = Ok [4294967197]
  /\ overlap_formula 100 200 180 220 = 21.
Proof. split; reflexivity. Qed.

(** C2 (code defect). On a collection whose arrays have lengths 1 and 2
    the three kernel functions return a vector: the elementwise
    subtraction repeats the single element, and no shape check is made
    before it. *)
Theorem kernel_accepts_unequal_lengths :
  let g := {| start := 100; stop := 200 |} in
  let t := {| starts := [180]; stops := [220; 230] |} in
  length (starts t) ≠ length (stops t)
  /\ Overlap.left g t 50 = Ok [4294967216; 4294967216]
  /\ Overlap.intra g t = Ok [4294967197; 4294967197]
  /\ Overlap.right g t 50 = Ok [20; 30].
Proof. repeat split; try reflexivity. simpl. lia. Qed.

(** X9. When neither array has length 1, arrays of unequal lengths make
    the three kernel functions raise at the subtraction: numpy cannot
    broadcast the two bounds. *)
Lemma kernel_raises_on_mismatch (g : GeneDatum) (t : TransposonData)
    (window : Z) :
  length (starts t) ≠ length (stops t) ->
  length (starts t) ≠ 1%nat -> length (stops t) ≠ 1%nat ->
  Overlap.left g t window = Err BroadcastError
  /\ Overlap.intra g t = Err BroadcastError
  /\ Overlap.right g t window = Err BroadcastError.
Proof.
  intros Hne Hs He.
  unfold Overlap.left, Overlap.intra, Overlap.right, np.subtract.
  rewrite !broadcast2_mismatch;
    unfold np.maximum, np.minimum; rewrite ?length_fmap; done.
Qed.

(** The effective window of the gene datum is the window that
    [validate_window] returns on the clamped window start. *)
Lemma win_length_validate_window (g : GeneDatum) (window : Z) :
  win_length g window =
    validate_window (Z.max 0 (start g - window)) (start g) window.
Proof. unfold win_length, validate_window. repeat case_decide; lia. Qed.

(** C7 (code defect). For the gene starting at 50 and the requested
    window 100 the effective window is 50 and the left region is
    [[0, 49]]; [Overlap.left] returns the value of the formula for the
    elements that meet the region (11 and 10), but for the element
    60..70, which lies apart from it, it returns 4294967286 where the
    formula [max(0, min(w1, stop) - max(w0, start) + 1)] gives 0: the
    difference [49 - 60] wraps in [uint32] before [np.maximum(0, .)] is
    applied. *)
Theorem left_scenario_apart_element_wraps :
  let g := {| start := 50; stop := 80 |} in
  let t := {| starts := [0; 40; 60]; stops := [10; 55; 70] |} in
  win_length g 100 = 50
  /\ left_win_start g (win_length g 100) = 0 /\ left_win_stop g = 49
  /\ Overlap.left g t 100 = Ok [11; 10; 4294967286]
  /\ overlap_formula 0 49 0 10 = 11
  /\ overlap_formula 0 49 40 55 = 10
  /\ overlap_formula 0 49 60 70 = 0.
Proof. repeat split; reflexivity. Qed.

(** C4 (amended). On arrays of [uint32] of equal length, for a gene and
    a right region within the range of [uint32], [Overlap.right] uses
    the region [[w0, w1]] with [w0 = gene.stop + 1] and
    [w1 = gene.stop + effective_window], where the effective window is
    the requested window truncated to the gene start ([w1] is
    [gene.stop + window] exactly when the left window is not truncated);
    at each index whose element meets or touches the region it returns
    [max(0, min(w1, stops[i]) - max(w0, starts[i]) + 1)]. *)
Theorem right_overlap_effective_window (g : GeneDatum) (t : TransposonData)
    (window : Z) :
  length (starts t) = length (stops t) ->
  u32_arrays t -> u32_gene g -> right_region_u32 g window ->
  let effective_window := win_length g window in
  let w0 := stop g + 1 in
  let w1 := stop g + effective_window in
  effective_window = Z.min window (start g)
  /\ (w1 = stop g + window <-> window <= start g)
  /\ exists v, Overlap.right g t window = Ok v
       /\ length v = length (starts t)
       /\ forall (i : nat) (s e : Z),
            starts t !! i = Some s -> stops t !! i = Some e ->
            Z.max w0 s <= Z.min w1 e + 1 ->
            v !! i = Some (Z.max 0 (Z.min w1 e - Z.max w0 s + 1)).
Proof.
  intros Hlen Ht [Hg0 Hg1] [Hw0 Hw1]. cbv zeta.
  unfold right_win_start, right_win_stop in Hw0, Hw1.
  split; [unfold win_length; case_decide; lia|].
  split; [unfold win_length; case_decide; lia|].
  eexists. split; [by apply right_equal_length |]. split.
  - rewrite length_zip_with. lia.
  - intros i s e Hs He Hmeet.
    destruct (u32_arrays_lookup t i s e Ht Hs He) as [Hsr Her].
    rewrite (zip_with_lookup_Z _ _ _ _ _ _ Hs He). f_equal.
    unfold right_win_start, right_win_stop.
    destruct (overlap_uint32_meets (stop g + 1)
                (stop g + win_length g window) s e) as [_ ->]; [|done].
    unfold u32 in *. lia.
Qed.

(** C8. On arrays of equal length the three kernel functions return, and
    every element of the vectors they return is at least 0. *)
Theorem overlaps_nonnegative (g : GeneDatum) (t : TransposonData)
    (window : Z) :
  length (starts t) = length (stops t) ->
  exists l i r : list Z,
    Overlap.left g t window = Ok l
    /\ Overlap.intra g t = Ok i
    /\ Overlap.right g t window = Ok r
    /\ Forall (fun x => 0 <= x) l
    /\ Forall (fun x => 0 <= x) i
    /\ Forall (fun x => 0 <= x) r.
Proof.
  intros Hlen.
  pose proof (left_equal_length g t window Hlen) as Hl.
  pose proof (intra_equal_length g t Hlen) as Hi.
  pose proof (right_equal_length g t window Hlen) as Hr.
  eexists _, _, _. repeat split; try eassumption.
  - eapply (kernel_nonneg g t window); eauto.
  - eapply (kernel_nonneg g t window); eauto.
  - eapply (kernel_nonneg g t window); eauto.
Qed.


(** ** Filters *)

Lemma _filter_windows_spec (windows : list Z) :
  _filter_windows windows =
    (InvalidWindow <$> filter (fun w => w < 0) windows,
     filter (fun w => 0 <= w) windows).
Proof.
  induction windows as [|w ws IH]; simpl; [done|].
  rewrite IH, !filter_cons. repeat case_decide; try lia; done.
Qed.

Lemma _filter_gene_names_spec (requested : list string)
    (available : gset string) :
  _filter_gene_names requested available =
    (InvalidGeneName <$> filter (fun n => n ∉ available) requested,
     filter (fun n => n ∈ available) requested).
Proof.
  induction requested as [|n ns IH]; simpl; [done|].
  rewrite IH, !filter_cons. repeat case_decide; done.
Qed.

Lemma _reset_spec (t : TransposonData) (genes : gmap string GeneDatum)
    (windows : list Z) (gene_names : list string) :
  let ns := filter (fun n => n ∈ names genes) gene_names in
  let ws := filter (fun w => 0 <= w) windows in
  _reset t genes windows gene_names =
    ((InvalidGeneName <$> filter (fun n => n ∉ names genes) gene_names)
       ++ (InvalidWindow <$> filter (fun w => w < 0) windows),
     {| _data := {| _n_genes := length ns; _n_tes := number_elements t;
                    _n_win := length ws |};
        _windows := ws;
        _gene_names := ns;
        _gene_name_2_idx := _map_gene_names_2_indices ns;
        _window_2_idx := _map_windows_2_indices ws |}).
Proof.
  cbv zeta. unfold _reset.
  by rewrite _filter_gene_names_spec, _filter_windows_spec.
Qed.

(** ** Index maps *)

Lemma dict_enumerate_notin `{Countable K} (keys : list K) (idx : nat)
    (d : gmap K nat) (k : K) :
  k ∉ keys -> dict_enumerate idx keys d !! k = d !! k.
Proof.
  revert idx d. induction keys as [|x keys IH]; intros idx d Hk; simpl.
  - done.
  - apply not_elem_of_cons in Hk as [Hne Hk].
    rewrite IH by done. by rewrite lookup_insert_ne.
Qed.

Lemma dict_enumerate_last `{Countable K} (pre post : list K) (idx : nat)
    (d : gmap K nat) (k : K) :
  k ∉ post ->
  dict_enumerate idx (pre ++ k :: post) d !! k = Some (idx + length pre)%nat.
Proof.
  intros Hk. revert idx d.
  induction pre as [|x pre IH]; intros idx d; simpl.
  - rewrite dict_enumerate_notin by done.
    rewrite lookup_insert_eq. f_equal. lia.
  - rewrite IH. f_equal. lia.
Qed.

(** A key is bound to the index of its last occurrence. *)
Lemma dict_enumerate_spec `{Countable K} (keys : list K) (k : K) (j : nat) :
  dict_enumerate 0 keys ∅ !! k = Some j <->
  exists pre post, keys = pre ++ k :: post /\ (k ∉ post) /\ j = length pre.
Proof.
  split.
  - intros Hj. destruct (decide (k ∈ keys)) as [Hin|Hnin].
    + apply list_elem_of_split_r in Hin as (pre & post & -> & Hpost).
      rewrite dict_enumerate_last in Hj by done.
      injection Hj as <-. eauto.
    + rewrite dict_enumerate_notin in Hj by done.
      by rewrite lookup_empty in Hj.
  - intros (pre & post & -> & Hpost & ->).
    by rewrite dict_enumerate_last.
Qed.

Lemma dict_enumerate_elem `{Countable K} (keys : list K) (k : K) :
  k ∈ keys -> exists j, dict_enumerate 0 keys ∅ !! k = Some j.
Proof.
  intros Hin.
  apply list_elem_of_split_r in Hin as (pre & post & -> & Hpost).
  exists (length pre). apply dict_enumerate_spec. eauto.
Qed.

Lemma dict_enumerate_lookup `{Countable K} (keys : list K) (k : K) (j : nat) :
  dict_enumerate 0 keys ∅ !! k = Some j ->
  keys !! j = Some k /\ (j < length keys)%nat.
Proof.
  intros (pre & post & -> & _ & ->)%dict_enumerate_spec. split.
  - by rewrite list_lookup_middle.
  - rewrite length_app. simpl. lia.
Qed.

(** Two keys bound to the same index are the same key. *)
Lemma dict_enumerate_inj `{Countable K} (keys : list K) (k k' : K) (j : nat) :
  dict_enumerate 0 keys ∅ !! k = Some j ->
  dict_enumerate 0 keys ∅ !! k' = Some j -> k = k'.
Proof.
  intros [H1 _]%dict_enumerate_lookup [H2 _]%dict_enumerate_lookup.
  congruence.
Qed.

(** No later occurrence of the key follows the index it is bound to. *)
Lemma dict_enumerate_no_later `{Countable K} (keys : list K) (k : K)
    (j i : nat) :
  dict_enumerate 0 keys ∅ !! k = Some j -> keys !! i = Some k -> (i <= j)%nat.
Proof.
  intros (pre & post & -> & Hpost & ->)%dict_enumerate_spec Hi.
  destruct (decide (i <= length pre)%nat) as [|Hgt]; [done|].
  exfalso. apply Hpost.
  rewrite lookup_app_r in Hi by lia.
  destruct (i - length pre)%nat as [|p] eqn:Hp; [lia|].
  simpl in Hi. by apply list_elem_of_lookup_2 in Hi.
Qed.


(** ** The store *)

Lemma assign_row_length (n : nat) (v : list Z) (row : list F) :
  assign_row n v = Ok row -> length row = n.
Proof.
  unfold assign_row. case_decide as Hn.
  - intros [= <-]. by rewrite length_fmap.
  - destruct v as [|x [|]]; intros [= <-]. by rewrite length_replicate.
Qed.

(** A vector that has one element only when the selection has one is
    stored element by element. *)
Lemma assign_row_exact (n : nat) (v : list Z) (row : list F) :
  (length v = 1%nat -> n = 1%nat) ->
  assign_row n v = Ok row -> row = cast <$> v.
Proof.
  unfold assign_row. intros Hone. case_decide as Hn.
  - by intros [= <-].
  - destruct v as [|x [|]]; intros [= <-]. simpl in *. lia.
Qed.

Lemma assign_row_same_length (v : list Z) :
  assign_row (length v) v = Ok (cast <$> v).
Proof. unfold assign_row. by rewrite decide_True. Qed.

Lemma create_dataset3_Ok (shape chunks : nat * nat * nat) (d : Dataset3) :
  create_dataset3 shape chunks = Ok d ->
  chunks_fit shape chunks /\ wf3 d /\ shape3 d = shape
  /\ data3 d = replicate shape.1.1
                 (replicate shape.1.2 (replicate shape.2 (cast 0))).
Proof.
  unfold create_dataset3. destruct shape as [[n0 n1] n2].
  case_decide as Hfit; [|done]. intros [= <-].
  split; [done|]. unfold wf3. simpl.
  rewrite length_replicate. repeat split.
  apply Forall_replicate. rewrite length_replicate. split; [done|].
  apply Forall_replicate. by rewrite length_replicate.
Qed.

Lemma create_dataset2_wf (shape : nat * nat) :
  wf2 (create_dataset2 shape) /\ shape2 (create_dataset2 shape) = shape.
Proof.
  destruct shape as [n0 n1]. unfold wf2. simpl.
  rewrite length_replicate. repeat split.
  apply Forall_replicate. by rewrite length_replicate.
Qed.

(** What [__enter__] returns when it returns. *)
Lemma enter_Ok (dims : _OverlapDataSink) (s : H5File) :
  enter dims = Ok s ->
  opens dims /\ sink_inv dims s /\ journal s = []
  /\ data3 (left s)
     = replicate (_n_genes dims)
         (replicate (_n_win dims) (replicate (_n_tes dims) (cast 0)))
  /\ data3 (right s)
     = replicate (_n_genes dims)
         (replicate (_n_win dims) (replicate (_n_tes dims) (cast 0)))
  /\ data2 (intra s)
     = replicate (_n_genes dims) (replicate (_n_tes dims) (cast 0)).
Proof.
  unfold enter, opens. destruct output_dir_ok; [|done].
  intros (l & Hl & (r & Hr & [= <-])%bind_Ok)%bind_Ok.
  apply create_dataset3_Ok in Hl as (Hfit & Wl & Sl & Dl).
  apply create_dataset3_Ok in Hr as (_ & Wr & Sr & Dr).
  pose proof (create_dataset2_wf (_n_genes dims, _n_tes dims)) as [W2 S2].
  unfold chunks_fit in Hfit. unfold sink_inv. simpl in *.
  split_and!; first [done | lia].
Qed.

Lemma enter_inv (dims : _OverlapDataSink) (s : H5File) :
  enter dims = Ok s -> sink_inv dims s.
Proof. by intros (_ & H & _)%enter_Ok. Qed.

Lemma enter_opens (dims : _OverlapDataSink) :
  opens dims -> exists s, enter dims = Ok s.
Proof.
  intros (Hdir & Hg & Hw & Ht & Hsize). unfold enter, create_dataset3.
  rewrite Hdir, decide_True; [|unfold chunks_fit; lia].
  simpl. eauto.
Qed.

(** The exception of [__enter__] when the store cannot be opened. *)
Lemma enter_Err (dims : _OverlapDataSink) :
  ~ opens dims ->
  enter dims = Err (if output_dir_ok then ChunkShapeError else FileError).
Proof.
  intros Hno. unfold enter, create_dataset3, opens in *.
  destruct output_dir_ok; [|done].
  rewrite decide_False; [done|]. unfold chunks_fit. intros H. apply Hno. lia.
Qed.

Lemma setitem2_spec (d d' : Dataset2) (g : nat) (v : list Z) :
  wf2 d -> setitem2 d g v = Ok d' ->
  exists row, assign_row (shape2 d).2 v = Ok row
    /\ shape2 d' = shape2 d /\ wf2 d'
    /\ data2 d' = <[g := row]> (data2 d)
    /\ (g < length (data2 d))%nat.
Proof.
  intros [Hlen Hrows]. unfold setitem2.
  destruct (shape2 d) as [n0 n1] eqn:Hshape. simpl in *.
  case_decide as Hg; [|done].
  intros (row & Hrow & [= <-])%bind_Ok.
  exists row. unfold wf2. simpl.
  split; [done|]. split; [done|]. split; [|split; [done | lia]].
  split; [by rewrite length_insert|].
  apply Forall_insert; [done|]. by apply assign_row_length in Hrow.
Qed.

Lemma setitem3_spec (d d' : Dataset3) (g w : nat) (v : list Z) :
  wf3 d -> setitem3 d (g, w) v = Ok d' ->
  exists row, assign_row (shape3 d).2 v = Ok row
    /\ shape3 d' = shape3 d /\ wf3 d'
    /\ getitem3 d' g w = Some row
    /\ (forall g', g' ≠ g -> data3 d' !! g' = data3 d !! g')
    /\ (forall w', w' ≠ w -> getitem3 d' g w' = getitem3 d g w').
Proof.
  intros [Hlen Hplanes]. unfold setitem3.
  destruct (shape3 d) as [[n0 n1] n2] eqn:Hshape. simpl in *.
  case_decide as Hg; [|done]. destruct Hg as [Hg Hw].
  intros (row & Hrow & [= <-])%bind_Ok.
  destruct (lookup_lt_is_Some_2 (data3 d) g) as [plane Hplane]; [lia|].
  pose proof (proj1 (Forall_lookup _ _) Hplanes g plane Hplane)
    as [Hpl Hprows].
  exists row. unfold wf3, getitem3. simpl.
  split; [done|]. split; [done|]. split; [split|split; [|split]].
  - by rewrite length_alter.
  - apply Forall_alter; [done|].
    intros plane' Hplane'. rewrite Hplane in Hplane'. injection Hplane' as <-.
    split; [by rewrite length_insert|].
    apply Forall_insert; [done|]. by apply assign_row_length in Hrow.
  - rewrite list_lookup_alter_eq, Hplane. simpl.
    apply list_lookup_insert_eq. lia.
  - intros g' Hne. by apply list_lookup_alter_ne.
  - intros w' Hne. rewrite list_lookup_alter_eq, Hplane. simpl.
    by apply list_lookup_insert_ne.
Qed.

Lemma writes_within_refl (R : nat -> Prop) (s : H5File) : writes_within R s s.
Proof.
  split; [exists []; by rewrite app_nil_r | intros g _; by repeat split].
Qed.

Lemma writes_within_trans (R : nat -> Prop) (s1 s2 s3 : H5File) :
  writes_within R s1 s2 -> writes_within R s2 s3 -> writes_within R s1 s3.
Proof.
  intros [(n1 & J1 & F1) K1] [(n2 & J2 & F2) K2]. split.
  - exists (n1 ++ n2). rewrite J2, J1, app_assoc. split; [done|].
    by apply Forall_app.
  - intros g Hg. destruct (K1 g Hg) as (a1 & b1 & c1).
    destruct (K2 g Hg) as (a2 & b2 & c2).
    repeat split; congruence.
Qed.

Lemma writes_within_mono (R R' : nat -> Prop) (s s' : H5File) :
  (forall g, R g -> R' g) -> writes_within R s s' -> writes_within R' s s'.
Proof.
  intros HR [(new & J & Hnew) K]. split.
  - exists new. split; [done|]. eapply Forall_impl; [exact Hnew|]. auto.
  - intros g Hg. apply K. auto.
Qed.

Lemma set_intra_spec (dims : _OverlapDataSink) (s s' : H5File) (g : nat)
    (v : list Z) :
  sink_inv dims s -> set_intra g v s = Ok s' ->
  exists row, assign_row (_n_tes dims) v = Ok row
    /\ sink_inv dims s'
    /\ getitem2 (intra s') g = Some row
    /\ left s' = left s /\ right s' = right s
    /\ writes_within (fun g' => g' = g) s s'.
Proof.
  intros (Sl & Sr & Si & Wl & Wr & Wi). unfold set_intra.
  intros (d & Hd & [= <-])%bind_Ok.
  apply setitem2_spec in Hd as (row & Hrow & Hshape & Hwf & Hdata & Hlt);
    [|done].
  rewrite Si in Hrow. exists row. unfold sink_inv, getitem2. simpl.
  split; [done|]. split; [by rewrite Hshape|].
  split; [rewrite Hdata; by apply list_lookup_insert_eq|].
  split; [done|]. split; [done|]. split.
  - simpl. eexists. split; [done|]. by repeat constructor.
  - intros g' Hg'. unfold same_rows. simpl. repeat split.
    rewrite Hdata. apply list_lookup_insert_ne. congruence.
Qed.

Lemma set_left_spec (dims : _OverlapDataSink) (s s' : H5File) (g w : nat)
    (v : list Z) :
  sink_inv dims s -> set_left (g, w) v s = Ok s' ->
  exists row, assign_row (_n_tes dims) v = Ok row
    /\ sink_inv dims s'
    /\ getitem3 (left s') g w = Some row
    /\ (forall w', w' ≠ w ->
          getitem3 (left s') g w' = getitem3 (left s) g w')
    /\ right s' = right s /\ intra s' = intra s
    /\ writes_within (fun g' => g' = g) s s'.
Proof.
  intros (Sl & Sr & Si & Wl & Wr & Wi). unfold set_left.
  intros (d & Hd & [= <-])%bind_Ok.
  apply setitem3_spec in Hd as (row & Hrow & Hshape & Hwf & Hget & Hg & Hw);
    [|done].
  rewrite Sl in Hrow. exists row. unfold sink_inv. simpl.
  split; [done|]. split; [by rewrite Hshape|].
  split; [done|]. split; [done|]. split; [done|]. split; [done|]. split.
  - simpl. eexists. split; [done|]. by repeat constructor.
  - intros g' Hg'. unfold same_rows. simpl. repeat split.
    apply Hg. congruence.
Qed.

Lemma set_right_spec (dims : _OverlapDataSink) (s s' : H5File) (g w : nat)
    (v : list Z) :
  sink_inv dims s -> set_right (g, w) v s = Ok s' ->
  exists row, assign_row (_n_tes dims) v = Ok row
    /\ sink_inv dims s'
    /\ getitem3 (right s') g w = Some row
    /\ (forall w', w' ≠ w ->
          getitem3 (right s') g w' = getitem3 (right s) g w')
    /\ left s' = left s /\ intra s' = intra s
    /\ writes_within (fun g' => g' = g) s s'.
Proof.
  intros (Sl & Sr & Si & Wl & Wr & Wi). unfold set_right.
  intros (d & Hd & [= <-])%bind_Ok.
  apply setitem3_spec in Hd as (row & Hrow & Hshape & Hwf & Hget & Hg & Hw);
    [|done].
  rewrite Sr in Hrow. exists row. unfold sink_inv. simpl.
  split; [done|]. split; [by rewrite Hshape|].
  split; [done|]. split; [done|]. split; [done|]. split; [done|]. split.
  - simpl. eexists. split; [done|]. by repeat constructor.
  - intros g' Hg'. unfold same_rows. simpl. repeat split.
    apply Hg. congruence.
Qed.

Lemma kernel_length_one (g : GeneDatum) (t : TransposonData) (window : Z)
    (v : list Z) :
  Overlap.left g t window = Ok v \/ Overlap.right g t window = Ok v \/
  Overlap.intra g t = Ok v ->
  length v = 1%nat -> length (starts t) = 1%nat.
Proof. intros H%kernel_length. lia. Qed.


(** ** The loops of [calculate] *)

Lemma window_body_spec (self : OverlapData) (gd : GeneDatum)
    (t : TransposonData) (g_idx : nat) (dims : _OverlapDataSink)
    (s s' : H5File) (window : Z) :
  sink_inv dims s -> _n_tes dims = length (starts t) ->
  window_body self gd t g_idx s window = Ok s' ->
  sink_inv dims s' /\ intra s' = intra s
  /\ writes_within (fun g => g = g_idx) s s'
  /\ exists (w_idx : nat) (l r : list Z),
       _window_2_idx self !! window = Some w_idx
       /\ Overlap.left gd t window = Ok l
       /\ Overlap.right gd t window = Ok r
       /\ getitem3 (left s') g_idx w_idx = Some (cast <$> l)
       /\ getitem3 (right s') g_idx w_idx = Some (cast <$> r)
       /\ forall w', w' ≠ w_idx ->
            getitem3 (left s') g_idx w' = getitem3 (left s) g_idx w'
            /\ getitem3 (right s') g_idx w' = getitem3 (right s) g_idx w'.
Proof.
  intros Hinv Hn. unfold window_body, left_right_slice.
  intros (l & Hl & (r & Hr & (w_idx & Hw%of_option_Ok
    & (s1 & H1 & H2)%bind_Ok)%bind_Ok)%bind_Ok)%bind_Ok.
  apply (set_left_spec dims) in H1
    as (row1 & Hrow1 & Hinv1 & Hget1 & Hoth1 & Hr1 & Hi1 & Hw1); [|done].
  apply (set_right_spec dims) in H2
    as (row2 & Hrow2 & Hinv2 & Hget2 & Hoth2 & Hl2 & Hi2 & Hw2); [|done].
  apply assign_row_exact in Hrow1 as ->;
    [|rewrite Hn; apply (kernel_length_one gd t window); auto].
  apply assign_row_exact in Hrow2 as ->;
    [|rewrite Hn; apply (kernel_length_one gd t window); auto].
  split; [done|]. split; [congruence|].
  split; [by eapply writes_within_trans|].
  exists w_idx, l, r. rewrite Hl2. repeat split; try done.
  - by apply Hoth1.
  - rewrite Hoth2, Hr1; done.
Qed.

Lemma kernel_deterministic {A} (r : res A) (a b : A) :
  r = Ok a -> r = Ok b -> a = b.
Proof. congruence. Qed.

Lemma windows_loop_spec (self : OverlapData) (gd : GeneDatum)
    (t : TransposonData) (g_idx : nat) (dims : _OverlapDataSink)
    (s s' : H5File) :
  sink_inv dims s -> _n_tes dims = length (starts t) ->
  _window_2_idx self = _map_windows_2_indices (_windows self) ->
  for_each (window_body self gd t g_idx) (_windows self) s = Ok s' ->
  sink_inv dims s' /\ intra s' = intra s
  /\ writes_within (fun g => g = g_idx) s s'
  /\ forall window, window ∈ _windows self ->
       window_stored self gd t g_idx s' window.
Proof.
  intros Hinv Hn Hidx Hloop.
  pose (I := fun u : H5File =>
    sink_inv dims u /\ intra u = intra s
    /\ writes_within (fun g => g = g_idx) s u).
  destruct (for_each_establishes (window_body self gd t g_idx) I
              (fun w u => window_stored self gd t g_idx u w)
              (_windows self))
    with (s := s) (s' := s') as [(H1 & H2 & H3) H4]; try done.
  - intros w u u' _ (Iu & Eu & Wu) Hb.
    apply (window_body_spec _ _ _ _ dims) in Hb
      as (Iu' & Eu' & Wu' & w_idx & l & r & Hw & Hl & Hr & Gl & Gr & _);
      try done.
    split.
    + split; [done|]. split; [congruence|]. by eapply writes_within_trans.
    + by exists w_idx, l, r.
  - intros w w' u u' _ _ (Iu & Eu & Wu) (w_idx & l & r & Hw & Hl & Hr & Gl & Gr)
      Hb.
    apply (window_body_spec _ _ _ _ dims) in Hb
      as (Iu' & Eu' & Wu' & w_idx' & l' & r' & Hw' & Hl' & Hr' & Gl' & Gr'
          & Hoth); try done.
    exists w_idx, l, r. split; [done|]. split; [done|]. split; [done|].
    destruct (decide (w_idx = w_idx')) as [<-|Hne].
    + assert (w = w') as <-.
      { rewrite Hidx in Hw, Hw'. unfold _map_windows_2_indices in *.
        by eapply dict_enumerate_inj. }
      rewrite (kernel_deterministic _ _ _ Hl Hl').
      rewrite (kernel_deterministic _ _ _ Hr Hr'). done.
    + destruct (Hoth w_idx Hne) as [-> ->]. done.
  - split; [done|]. split; [done|]. apply writes_within_refl.
Qed.

Lemma gene_body_spec (self : OverlapData) (genes : gmap string GeneDatum)
    (t : TransposonData) (dims : _OverlapDataSink) (s s' : H5File)
    (gene_name : string) :
  sink_inv dims s -> _n_tes dims = length (starts t) ->
  _window_2_idx self = _map_windows_2_indices (_windows self) ->
  gene_body self genes t s gene_name = Ok s' ->
  sink_inv dims s' /\ gene_stored self genes t gene_name s'
  /\ exists g_idx, _gene_name_2_idx self !! gene_name = Some g_idx
       /\ writes_within (fun g => g = g_idx) s s'.
Proof.
  intros Hinv Hn Hidx. unfold gene_body, get_gene, intra_slice.
  intros (gd & Hgd%of_option_Ok & (g_idx & Hg%of_option_Ok
    & (i & Hi & (s1 & H1 & H2)%bind_Ok)%bind_Ok)%bind_Ok)%bind_Ok.
  apply (set_intra_spec dims) in H1
    as (row & Hrow & Hinv1 & Hget & Hl1 & Hr1 & Hw1); [|done].
  apply assign_row_exact in Hrow as ->;
    [|rewrite Hn; apply (kernel_length_one gd t 0); auto].
  apply (windows_loop_spec _ _ _ _ dims) in H2
    as (Hinv2 & Hi2 & Hw2 & Hstored); try done.
  split; [done|]. split.
  - exists gd, g_idx, i. rewrite Hi2. done.
  - exists g_idx. split; [done|]. by eapply writes_within_trans.
Qed.

Lemma same_rows_getitem (g : nat) (s s' : H5File) :
  same_rows g s s' ->
  getitem2 (intra s') g = getitem2 (intra s) g
  /\ forall w, getitem3 (left s') g w = getitem3 (left s) g w
               /\ getitem3 (right s') g w = getitem3 (right s) g w.
Proof.
  intros (Hl & Hr & Hi). unfold getitem2, getitem3.
  by rewrite Hl, Hr, Hi.
Qed.

Lemma genes_loop_spec (self : OverlapData) (genes : gmap string GeneDatum)
    (t : TransposonData) (s s' : H5File) :
  indexed self t -> sink_inv (_data self) s ->
  for_each (gene_body self genes t) (_gene_names self) s = Ok s' ->
  sink_inv (_data self) s'
  /\ writes_within
       (fun g => exists n, _gene_name_2_idx self !! n = Some g) s s'
  /\ forall gene_name, gene_name ∈ _gene_names self ->
       gene_stored self genes t gene_name s'.
Proof.
  intros (Hgi & Hwi & Hdims) Hinv Hloop.
  assert (Hn : _n_tes (_data self) = length (starts t)) by by rewrite Hdims.
  pose (I := fun u : H5File =>
    sink_inv (_data self) u
    /\ writes_within
         (fun g => exists n, _gene_name_2_idx self !! n = Some g) s u).
  destruct (for_each_establishes (gene_body self genes t) I
              (fun n u => gene_stored self genes t n u) (_gene_names self))
    with (s := s) (s' := s') as [(H1 & H2) H3]; try done.
  - intros n u u' _ (Iu & Wu) Hb.
    apply (gene_body_spec _ _ _ (_data self)) in Hb
      as (Iu' & Hst & g_idx & Hg & Wu'); try done.
    split; [|done]. split; [done|].
    eapply writes_within_trans; [exact Wu|].
    eapply writes_within_mono; [|exact Wu']. intros g ->. eauto.
  - intros n n' u u' _ _ (Iu & Wu) Hst Hb.
    apply (gene_body_spec _ _ _ (_data self)) in Hb
      as (Iu' & Hst' & g_idx' & Hg' & [_ Wu']); try done.
    destruct (decide (n = n')) as [->|Hne]; [done|].
    destruct Hst as (gd & g_idx & i & Hgd & Hg & Hi & Gi & Hws).
    assert (Hrows : same_rows g_idx u u').
    { apply Wu'. intros ->. apply Hne.
      rewrite Hgi in Hg, Hg'. unfold _map_gene_names_2_indices in *.
      by eapply dict_enumerate_inj. }
    apply same_rows_getitem in Hrows as [Ei Elr].
    exists gd, g_idx, i. rewrite Ei. repeat split; try done.
    intros w Hw. destruct (Hws w Hw) as (w_idx & l & r & ? & ? & ? & Gl & Gr).
    exists w_idx, l, r. destruct (Elr w_idx) as [-> ->]. done.
  - split; [done|]. apply writes_within_refl.
Qed.


(** ** [calculate] completes on well-formed collections *)

Lemma setitem3_total (d : Dataset3) (g w : nat) (v : list Z) :
  (g < (shape3 d).1.1)%nat -> (w < (shape3 d).1.2)%nat ->
  length v = (shape3 d).2 ->
  exists d', setitem3 d (g, w) v = Ok d'.
Proof.
  intros Hg Hw Hv. unfold setitem3.
  destruct (shape3 d) as [[n0 n1] n2]. simpl in *.
  rewrite decide_True by done. subst n2.
  rewrite assign_row_same_length. simpl. eauto.
Qed.

Lemma setitem2_total (d : Dataset2) (g : nat) (v : list Z) :
  (g < (shape2 d).1)%nat -> length v = (shape2 d).2 ->
  exists d', setitem2 d g v = Ok d'.
Proof.
  intros Hg Hv. unfold setitem2.
  destruct (shape2 d) as [n0 n1]. simpl in *.
  rewrite decide_True by done. subst n1.
  rewrite assign_row_same_length. simpl. eauto.
Qed.

Lemma res_bind_Ok {A B} (a : A) (f : A -> res B) : Ok a ≫= f = f a.
Proof. reflexivity. Qed.

Lemma of_option_Some {A} (e : exn) (a : A) : of_option e (Some a) = Ok a.
Proof. reflexivity. Qed.

Lemma set_left_total (dims : _OverlapDataSink) (s : H5File) (g w : nat)
    (v : list Z) :
  sink_inv dims s -> (g < _n_genes dims)%nat -> (w < _n_win dims)%nat ->
  length v = _n_tes dims ->
  exists s', set_left (g, w) v s = Ok s' /\ sink_inv dims s'.
Proof.
  intros Hinv Hg Hw Hv. pose proof Hinv as (Sl & _).
  destruct (setitem3_total (left s) g w v) as [d Hd];
    rewrite ?Sl; try done.
  assert (exists s', set_left (g, w) v s = Ok s') as [s' Hs'].
  { unfold set_left. rewrite Hd, res_bind_Ok. eauto. }
  exists s'. split; [done|].
  by apply (set_left_spec dims) in Hs' as (_ & _ & ? & _).
Qed.

Lemma set_right_total (dims : _OverlapDataSink) (s : H5File) (g w : nat)
    (v : list Z) :
  sink_inv dims s -> (g < _n_genes dims)%nat -> (w < _n_win dims)%nat ->
  length v = _n_tes dims ->
  exists s', set_right (g, w) v s = Ok s' /\ sink_inv dims s'.
Proof.
  intros Hinv Hg Hw Hv. pose proof Hinv as (_ & Sr & _).
  destruct (setitem3_total (right s) g w v) as [d Hd];
    rewrite ?Sr; try done.
  assert (exists s', set_right (g, w) v s = Ok s') as [s' Hs'].
  { unfold set_right. rewrite Hd, res_bind_Ok. eauto. }
  exists s'. split; [done|].
  by apply (set_right_spec dims) in Hs' as (_ & _ & ? & _).
Qed.

Lemma set_intra_total (dims : _OverlapDataSink) (s : H5File) (g : nat)
    (v : list Z) :
  sink_inv dims s -> (g < _n_genes dims)%nat -> length v = _n_tes dims ->
  exists s', set_intra g v s = Ok s' /\ sink_inv dims s'.
Proof.
  intros Hinv Hg Hv. pose proof Hinv as (_ & _ & Si & _).
  destruct (setitem2_total (intra s) g v) as [d Hd];
    rewrite ?Si; try done.
  assert (exists s', set_intra g v s = Ok s') as [s' Hs'].
  { unfold set_intra. rewrite Hd, res_bind_Ok. eauto. }
  exists s'. split; [done|].
  by apply (set_intra_spec dims) in Hs' as (_ & _ & ? & _).
Qed.

Lemma window_body_total (self : OverlapData) (gd : GeneDatum)
    (t : TransposonData) (g_idx : nat) (s : H5File) (window : Z) :
  indexed self t -> sink_inv (_data self) s ->
  length (starts t) = length (stops t) ->
  (g_idx < length (_gene_names self))%nat -> window ∈ _windows self ->
  exists s', window_body self gd t g_idx s window = Ok s'
             /\ sink_inv (_data self) s'.
Proof.
  intros (Hgi & Hwi & Hdims) Hinv Hlen Hg Hw.
  unfold window_body, left_right_slice.
  rewrite left_equal_length, right_equal_length, !res_bind_Ok by done.
  rewrite Hwi. unfold _map_windows_2_indices.
  destruct (dict_enumerate_elem _ _ Hw) as [w_idx Hidx].
  rewrite Hidx, of_option_Some, res_bind_Ok.
  apply dict_enumerate_lookup in Hidx as [_ Hlt].
  edestruct (set_left_total (_data self) s g_idx w_idx) as (s1 & -> & Hinv1);
    [done | by rewrite Hdims | by rewrite Hdims | | ].
  { rewrite Hdims, length_zip_with. unfold number_elements. simpl. lia. }
  rewrite res_bind_Ok.
  edestruct (set_right_total (_data self) s1 g_idx w_idx) as (s2 & -> & Hinv2);
    [done | by rewrite Hdims | by rewrite Hdims | | eauto].
  rewrite Hdims, length_zip_with. unfold number_elements. simpl. lia.
Qed.

Lemma gene_body_total (self : OverlapData) (genes : gmap string GeneDatum)
    (t : TransposonData) (s : H5File) (gene_name : string) :
  indexed self t -> sink_inv (_data self) s ->
  length (starts t) = length (stops t) ->
  gene_name ∈ _gene_names self -> gene_name ∈ names genes ->
  exists s', gene_body self genes t s gene_name = Ok s'
             /\ sink_inv (_data self) s'.
Proof.
  intros Hix Hinv Hlen Hn Hav.
  pose proof Hix as (Hgi & Hwi & Hdims).
  unfold gene_body, get_gene, intra_slice.
  unfold names in Hav. apply elem_of_dom in Hav as [gd Hgd]. rewrite Hgd.
  rewrite of_option_Some, res_bind_Ok.
  rewrite Hgi. unfold _map_gene_names_2_indices.
  destruct (dict_enumerate_elem _ _ Hn) as [g_idx Hidx].
  rewrite Hidx, of_option_Some, res_bind_Ok.
  apply dict_enumerate_lookup in Hidx as [_ Hlt].
  rewrite intra_equal_length, res_bind_Ok by done.
  edestruct (set_intra_total (_data self) s g_idx) as (s1 & -> & Hinv1);
    [done | by rewrite Hdims | | ].
  { rewrite Hdims, length_zip_with. unfold number_elements. simpl. lia. }
  rewrite res_bind_Ok.
  apply (for_each_total (window_body self gd t g_idx)
           (sink_inv (_data self)) (_windows self)); [|done].
  intros w u Hw Hu. by apply window_body_total.
Qed.

Lemma _reset_indexed (t : TransposonData) (genes : gmap string GeneDatum)
    (windows : list Z) (gene_names : list string) :
  indexed (_reset t genes windows gene_names).2 t.
Proof. rewrite _reset_spec. by repeat split. Qed.

Lemma calculate_unfold (genes : gmap string GeneDatum) (t : TransposonData)
    (windows : list Z) (gene_names : list string) :
  let self := (_reset t genes windows gene_names).2 in
  calculate genes t windows gene_names =
    ((_reset t genes windows gene_names).1,
     sink ← enter (_data self);
     sink ← for_each (gene_body self genes t) (_gene_names self) sink;
     Ok (self, sink)).
Proof. cbv zeta. unfold calculate. by destruct (_reset _ _ _ _). Qed.

Lemma calculate_Ok (genes : gmap string GeneDatum) (t : TransposonData)
    (windows : list Z) (gene_names : list string)
    (self : OverlapData) (sink : H5File) :
  (calculate genes t windows gene_names).2 = Ok (self, sink) ->
  self = (_reset t genes windows gene_names).2
  /\ exists sink0,
       enter (_data self) = Ok sink0
       /\ for_each (gene_body self genes t) (_gene_names self) sink0
          = Ok sink.
Proof.
  rewrite calculate_unfold. simpl.
  intros (sink0 & Henter & (sink' & Hloop & [= <- <-])%bind_Ok)%bind_Ok.
  eauto.
Qed.

(** When the store opens, [calculate] on a collection whose arrays have
    equal lengths returns without raising. *)
Lemma calculate_completes (genes : gmap string GeneDatum)
    (t : TransposonData) (windows : list Z) (gene_names : list string) :
  opens (_data (_reset t genes windows gene_names).2) ->
  length (starts t) = length (stops t) ->
  exists self sink,
    (calculate genes t windows gene_names).2 = Ok (self, sink).
Proof.
  intros Hopen Hlen. rewrite calculate_unfold. simpl.
  set (self := (_reset t genes windows gene_names).2) in *.
  pose proof (_reset_indexed t genes windows gene_names) as Hix.
  fold self in Hix.
  destruct (enter_opens _ Hopen) as [sink0 Hsink0].
  rewrite Hsink0, res_bind_Ok.
  destruct (for_each_total (gene_body self genes t)
              (sink_inv (_data self)) (_gene_names self))
    with (s := sink0) as (sink & Hsink & _).
  - intros n u Hn Hu. apply gene_body_total; try done.
    subst self. rewrite _reset_spec in Hn. simpl in Hn.
    by apply list_elem_of_filter in Hn as [? _].
  - by apply enter_inv.
  - rewrite Hsink. simpl. eauto.
Qed.

(** The dimensions that [_reset] gives to the store. *)
Lemma _reset_dims (t : TransposonData) (genes : gmap string GeneDatum)
    (windows : list Z) (gene_names : list string) :
  _data (_reset t genes windows gene_names).2 =
    {| _n_genes := length (filter (fun n => n ∈ names genes) gene_names);
       _n_tes := number_elements t;
       _n_win := length (filter (fun w => 0 <= w) windows) |}.
Proof. by rewrite _reset_spec. Qed.


(** ** Filtering, shapes and stored slices *)

Lemma filter_with_invalid {A} (valid : A -> Prop)
    `{forall x, Decision (valid x)} (l l' : list A) :
  with_invalid valid l l' -> Forall valid l -> filter valid l' = l.
Proof.
  induction 1 as [|x l l' _ IH|x l l' Hx _ IH]; intros Hall.
  - done.
  - apply Forall_cons in Hall as [Hx Hall].
    rewrite filter_cons_True by done. f_equal. by apply IH.
  - rewrite filter_cons_False by done. by apply IH.
Qed.

Lemma filter_all {A} (valid : A -> Prop) `{forall x, Decision (valid x)}
    (l : list A) :
  Forall valid l -> filter valid l = l.
Proof.
  induction 1 as [|x l Hx _ IH]; [done|].
  rewrite filter_cons_True by done. by f_equal.
Qed.

(** [calculate] depends on the request only through the filtered lists. *)
Lemma calculate_filtered (genes : gmap string GeneDatum) (t : TransposonData)
    (windows windows' : list Z) (gene_names gene_names' : list string) :
  filter (fun n => n ∈ names genes) gene_names'
    = filter (fun n => n ∈ names genes) gene_names ->
  filter (fun w => 0 <= w) windows' = filter (fun w => 0 <= w) windows ->
  (calculate genes t windows' gene_names').2
    = (calculate genes t windows gene_names).2.
Proof.
  intros Hn Hw. rewrite !calculate_unfold. cbv zeta.
  rewrite !_reset_spec. cbv zeta. simpl. by rewrite Hn, Hw.
Qed.

Lemma sink_inv_shapes (dims : _OverlapDataSink) (s : H5File)
    (ng nw nt : nat) :
  sink_inv dims s ->
  dims = {| _n_genes := ng; _n_tes := nt; _n_win := nw |} ->
  shape3 (left s) = (ng, nw, nt) /\ shape3 (right s) = (ng, nw, nt)
  /\ shape2 (intra s) = (ng, nt)
  /\ wf3 (left s) /\ wf3 (right s) /\ wf2 (intra s).
Proof. intros H ->. exact H. Qed.

(** C3 (amended). Every requested window that is less than 0 is dropped:
    it is logged, it is absent from the filtered window list and it has
    no entry in the window index map; the windows kept, in request
    order, are those that are at least 0, so a window of 0 is kept; the
    loops of [calculate] run over the windows kept. *)
Theorem negative_windows_dropped (t : TransposonData)
    (genes : gmap string GeneDatum) (windows : list Z)
    (gene_names : list string) :
  let log := (_reset t genes windows gene_names).1 in
  let self := (_reset t genes windows gene_names).2 in
  (_filter_windows windows).2 = filter (fun w => 0 <= w) windows
  /\ _windows self = filter (fun w => 0 <= w) windows
  /\ (forall w, w ∈ windows -> w < 0 ->
        InvalidWindow w ∈ log /\ (w ∉ _windows self)
        /\ _window_2_idx self !! w = None)
  /\ (forall w, w ∈ windows -> 0 <= w ->
        w ∈ _windows self /\ is_Some (_window_2_idx self !! w))
  /\ (calculate genes t windows gene_names).1 = log
  /\ (calculate genes t windows gene_names).2 =
       (sink ← enter (_data self);
        sink ← for_each (gene_body self genes t) (_gene_names self) sink;
        Ok (self, sink)).
Proof.
  cbv zeta. rewrite calculate_unfold. cbv zeta.
  rewrite _filter_windows_spec, _reset_spec. cbv zeta. simpl.
  split; [done|]. split; [done|]. split; [|split; [|done]].
  - intros w Hin Hneg.
    assert (Hnot : w ∉ filter (fun w => 0 <= w) windows).
    { intros [Hw _]%list_elem_of_filter. lia. }
    split; [|split; [done|]].
    + apply elem_of_app. right. apply list_elem_of_fmap_2.
      by apply list_elem_of_filter.
    + unfold _map_windows_2_indices.
      rewrite dict_enumerate_notin by done. apply lookup_empty.
  - intros w Hin Hpos.
    assert (Hw : w ∈ filter (fun w => 0 <= w) windows)
      by by apply list_elem_of_filter.
    split; [done|]. unfold _map_windows_2_indices.
    destruct (dict_enumerate_elem _ _ Hw) as [j Hj]. by exists j.
Qed.

(** A completed [calculate] leaves the file with the shapes given at
    construction. *)
Lemma calculate_sink_inv (genes : gmap string GeneDatum)
    (t : TransposonData) (windows : list Z) (gene_names : list string)
    (self : OverlapData) (sink : H5File) :
  (calculate genes t windows gene_names).2 = Ok (self, sink) ->
  sink_inv (_data self) sink.
Proof.
  intros (-> & sink0 & Henter & Hloop)%calculate_Ok.
  apply genes_loop_spec in Hloop as [H _];
    [done | apply _reset_indexed | by apply enter_inv].
Qed.

(** C5 (amended). With [n_genes] and [n_windows] the lengths of the
    filtered lists, every occurrence of a repeated name or window
    counted: [__enter__] allocates the datasets exactly when the file
    can be created and the chunk shape [(32, n_windows, n_tes)] fits,
    that is from 32 filtered names, one filtered window and one element
    on, with a chunk of less than 4 GiB; the three datasets it allocates
    have the shapes
    [(n_genes, n_windows, n_tes)] for left and right and
    [(n_genes, n_tes)] for intra; the contents agree with these shapes,
    and both still hold of the file when [calculate] returns. *)
Theorem dataset_shapes_filtered_lengths (genes : gmap string GeneDatum)
    (t : TransposonData) (windows : list Z) (gene_names : list string) :
  let self := (_reset t genes windows gene_names).2 in
  let n_genes := length (filter (fun n => n ∈ names genes) gene_names) in
  let n_windows := length (filter (fun w => 0 <= w) windows) in
  let n_tes := number_elements t in
  let shapes_of (sink : H5File) :=
    shape3 (left sink) = (n_genes, n_windows, n_tes)
    /\ shape3 (right sink) = (n_genes, n_windows, n_tes)
    /\ shape2 (intra sink) = (n_genes, n_tes)
    /\ wf3 (left sink) /\ wf3 (right sink) /\ wf2 (intra sink) in
  ((exists sink, enter (_data self) = Ok sink)
   <-> output_dir_ok = true
       /\ (32 <= n_genes)%nat /\ (0 < n_windows)%nat /\ (0 < n_tes)%nat
       /\ 4 * (32 * Z.of_nat n_windows * Z.of_nat n_tes) < 2 ^ 32)
  /\ (forall sink, enter (_data self) = Ok sink -> shapes_of sink)
  /\ forall self' sink,
       (calculate genes t windows gene_names).2 = Ok (self', sink) ->
       shapes_of sink.
Proof.
  cbv zeta.
  pose proof (_reset_dims t genes windows gene_names) as Hdims.
  split; [|split].
  - split.
    + intros [sink Hsink]. apply enter_Ok in Hsink as [Hopen _].
      unfold opens in Hopen. by rewrite Hdims in Hopen.
    + intros Hopen. apply enter_opens. unfold opens. by rewrite Hdims.
  - intros sink Hsink.
    eapply sink_inv_shapes; [by apply enter_inv | exact Hdims].
  - intros self' sink Hrun.
    pose proof (calculate_sink_inv _ _ _ _ _ _ Hrun) as H.
    rewrite (proj1 (calculate_Ok _ _ _ _ _ _ Hrun)) in H.
    eapply sink_inv_shapes; [exact H | exact Hdims].
Qed.


(** C9 (amended). Adding to a valid request (names present in the gene
    collection, positive windows) names absent from the collection and
    windows less than 0, at any positions, does not change the outcome of
    [calculate]: the same exception, or the same index maps and the same
    datasets. *)
Theorem invalid_entries_ignored (genes : gmap string GeneDatum)
    (t : TransposonData) (windows windows' : list Z)
    (gene_names gene_names' : list string) :
  Forall (fun n => n ∈ names genes) gene_names ->
  Forall (fun w => 0 < w) windows ->
  with_invalid (fun n => n ∈ names genes) gene_names gene_names' ->
  with_invalid (fun w => 0 <= w) windows windows' ->
  (calculate genes t windows' gene_names').2
    = (calculate genes t windows gene_names).2.
Proof.
  intros Hn Hw Hn' Hw'.
  assert (Hw0 : Forall (fun w => 0 <= w) windows).
  { eapply Forall_impl; [exact Hw|]. intros w ?; simpl in *; lia. }
  apply calculate_filtered.
  - rewrite (filter_with_invalid _ _ _ Hn' Hn). by rewrite filter_all.
  - rewrite (filter_with_invalid _ _ _ Hw' Hw0). by rewrite filter_all.
Qed.

(** C10. When a name occurs in the filtered list of gene names at index
    [i] and again, for the last time, at index [j]: the gene index map
    binds the name to [j]; every run of the loop body on that name writes
    at gene index [j] only, and the rows of index [j] hold the gene's
    results when [calculate] returns; no write of [calculate] lands on
    the rows of index [i], which still hold the fill value. *)
Theorem duplicate_name_last_index (genes : gmap string GeneDatum)
    (t : TransposonData) (windows : list Z) (gene_names : list string)
    (self : OverlapData) (sink : H5File) (name : string) (i j : nat) :
  (calculate genes t windows gene_names).2 = Ok (self, sink) ->
  _gene_names self !! i = Some name ->
  _gene_names self !! j = Some name ->
  (i < j)%nat ->
  (forall k, (j < k)%nat -> _gene_names self !! k ≠ Some name) ->
  _gene_name_2_idx self !! name = Some j
  /\ (forall s s', sink_inv (_data self) s ->
        gene_body self genes t s name = Ok s' ->
        writes_within (fun g => g = j) s s')
  /\ gene_stored self genes t name sink
  /\ Forall (fun e => w_gene e ≠ i) (journal sink)
  /\ data2 (intra sink) !! i = Some (replicate (_n_tes (_data self)) (cast 0))
  /\ data3 (left sink) !! i =
       Some (replicate (_n_win (_data self))
               (replicate (_n_tes (_data self)) (cast 0)))
  /\ data3 (right sink) !! i =
       Some (replicate (_n_win (_data self))
               (replicate (_n_tes (_data self)) (cast 0))).
Proof.
  intros (-> & sink0 & Henter & Hloop)%calculate_Ok.
  set (self := (_reset t genes windows gene_names).2) in *.
  pose proof (_reset_indexed t genes windows gene_names) as Hix.
  fold self in Hix. pose proof Hix as (Hgi & Hwi & Hdims).
  intros Hi Hj Hlt Hlast.
  assert (Hbind : _gene_name_2_idx self !! name = Some j).
  { assert (Hin : name ∈ _gene_names self)
      by by eapply list_elem_of_lookup_2.
    rewrite Hgi. unfold _map_gene_names_2_indices.
    destruct (dict_enumerate_elem _ _ Hin) as [j' Hj'].
    pose proof (dict_enumerate_no_later _ _ _ _ Hj' Hj) as Hle.
    apply dict_enumerate_lookup in Hj' as Hat. destruct Hat as [Hat _].
    destruct (decide (j' = j)) as [->|Hne]; [done|].
    exfalso. apply (Hlast j'); [lia | done]. }
  apply enter_Ok in Henter as (_ & Hinv0 & Hj0 & Dl & Dr & Di).
  apply genes_loop_spec in Hloop as (Hinv & [(new & Hjournal & Hnew) Hrows]
                                     & Hst); [|done|done].
  assert (Hfree : ~ exists n, _gene_name_2_idx self !! n = Some i).
  { intros [n Hn]. rewrite Hgi in Hn, Hbind.
    unfold _map_gene_names_2_indices in *.
    apply dict_enumerate_lookup in Hn as Hat. destruct Hat as [Hat _].
    assert (n = name) as -> by congruence.
    assert (i = j) by congruence. lia. }
  split; [done|]. split; [|split; [|split]].
  - intros s s' Hs Hb.
    apply (gene_body_spec _ _ _ (_data self)) in Hb
      as (_ & _ & g_idx & Hg & Hw); try done; [|by rewrite Hdims].
    assert (g_idx = j) as -> by congruence. done.
  - apply Hst. by eapply list_elem_of_lookup_2.
  - rewrite Hjournal, Hj0. simpl.
    eapply Forall_impl; [exact Hnew|]. intros e He Heq. apply Hfree.
    by rewrite <- Heq.
  - destruct (Hrows i Hfree) as (-> & -> & ->).
    assert (Hi' : (i < length (_gene_names self))%nat)
      by (apply lookup_lt_is_Some; eauto).
    rewrite Dl, Dr, Di, Hdims. simpl.
    by rewrite !lookup_replicate_2.
Qed.


(** * Further properties of the kernel *)

(** The three kernel values at one index, on arrays of equal length. *)
Lemma kernel_at_index (g : GeneDatum) (t : TransposonData) (window : Z)
    (i : nat) (s e : Z) :
  length (starts t) = length (stops t) ->
  starts t !! i = Some s -> stops t !! i = Some e ->
  exists l r v : list Z,
    Overlap.left g t window = Ok l
    /\ Overlap.right g t window = Ok r
    /\ Overlap.intra g t = Ok v
    /\ l !! i = Some (overlap_uint32
                        (left_win_start g (win_length g window))
                        (left_win_stop g) s e)
    /\ r !! i = Some (overlap_uint32 (right_win_start g)
                        (right_win_stop g (win_length g window)) s e)
    /\ v !! i = Some (intra_formula (start g) (stop g) s e).
Proof.
  intros Hlen Hs He. eexists _, _, _.
  split; [by apply left_equal_length|].
  split; [by apply right_equal_length|].
  split; [by apply intra_equal_length|].
  by rewrite !(zip_with_lookup_Z _ _ _ _ _ _ Hs He).
Qed.

(** X1. On arrays of [uint32] of equal length, with the gene and the
    region bounds within [uint32]: for an element that meets or touches
    the left window, the left overlap exceeds neither the length of the
    element nor the effective window; likewise on the right. *)
Theorem flank_overlap_bounded (g : GeneDatum) (t : TransposonData)
    (window : Z) (i : nat) (s e : Z) :
  length (starts t) = length (stops t) ->
  u32_arrays t -> u32_gene g ->
  left_region_u32 g window -> right_region_u32 g window ->
  starts t !! i = Some s -> stops t !! i = Some e ->
  exists (l r : list Z),
    Overlap.left g t window = Ok l /\ Overlap.right g t window = Ok r
    /\ (Z.max (left_win_start g (win_length g window)) s
          <= Z.min (left_win_stop g) e + 1 ->
        exists x, l !! i = Some x
          /\ x <= e - s + 1 /\ x <= win_length g window)
    /\ (Z.max (right_win_start g) s
          <= Z.min (right_win_stop g (win_length g window)) e + 1 ->
        exists y, r !! i = Some y
          /\ y <= e - s + 1 /\ y <= win_length g window).
Proof.
  intros Hlen Ht [Hg0 Hg1] [Hl0 Hl1] [Hr0 Hr1] Hs He.
  destruct (u32_arrays_lookup t i s e Ht Hs He) as [Hsr Her].
  destruct (kernel_at_index g t window i s e Hlen Hs He)
    as (l & r & _ & Hl & Hr & _ & Hli & Hri & _).
  exists l, r. split; [done|]. split; [done|].
  unfold left_win_start, left_win_stop, right_win_start, right_win_stop,
    u32 in *.
  split; intros Hmeet; eexists; (split; [eassumption|]).
  - destruct (overlap_uint32_meets
                (Z.max 0 (start g - win_length g window)) (start g - 1) s e)
      as [-> _]; [lia|]. unfold win_length in *. case_decide; lia.
  - destruct (overlap_uint32_meets (stop g + 1)
                (stop g + win_length g window) s e) as [-> _]; [lia|].
    unfold win_length in *. case_decide; lia.
Qed.

(** X2. On arrays of [uint32] of equal length, with the region bounds
    within [uint32]: for an element that lies apart from the left window
    (it does not even touch it) the left value is not 0 but [2^32] less
    the gap, [2^32 + (min(w1, stop) - max(w0, start) + 1)]; likewise on
    the right. *)
Theorem flank_overlap_apart_wraps (g : GeneDatum) (t : TransposonData)
    (window : Z) (i : nat) (s e : Z) :
  length (starts t) = length (stops t) ->
  u32_arrays t ->
  left_region_u32 g window -> right_region_u32 g window ->
  starts t !! i = Some s -> stops t !! i = Some e ->
  exists (l r : list Z),
    Overlap.left g t window = Ok l /\ Overlap.right g t window = Ok r
    /\ (Z.min (left_win_stop g) e + 1
          < Z.max (left_win_start g (win_length g window)) s ->
        exists x, l !! i = Some x /\ 0 < x
          /\ x = 2 ^ 32 + (Z.min (left_win_stop g) e
                 - Z.max (left_win_start g (win_length g window)) s + 1))
    /\ (Z.min (right_win_stop g (win_length g window)) e + 1
          < Z.max (right_win_start g) s ->
        exists y, r !! i = Some y /\ 0 < y
          /\ y = 2 ^ 32 + (Z.min (right_win_stop g (win_length g window)) e
                 - Z.max (right_win_start g) s + 1)).
Proof.
  intros Hlen Ht [Hl0 Hl1] [Hr0 Hr1] Hs He.
  destruct (u32_arrays_lookup t i s e Ht Hs He) as [Hsr Her].
  destruct (kernel_at_index g t window i s e Hlen Hs He)
    as (l & r & _ & Hl & Hr & _ & Hli & Hri & _).
  exists l, r. split; [done|]. split; [done|].
  unfold u32 in *.
  split; intros Hapart; eexists; (split; [eassumption|]);
    rewrite overlap_uint32_apart by lia; lia.
Qed.

(** X3. An element that lies inside the left window is counted with its
    full length, [stop - start + 1]; likewise for the right window (the
    gene coordinates being values of [uint32]). *)
Theorem flank_overlap_contained (g : GeneDatum) (t : TransposonData)
    (window : Z) (i : nat) (s e : Z) :
  length (starts t) = length (stops t) ->
  u32_gene g ->
  starts t !! i = Some s -> stops t !! i = Some e ->
  s <= e ->
  exists (l r : list Z),
    Overlap.left g t window = Ok l /\ Overlap.right g t window = Ok r
    /\ (left_win_start g (win_length g window) <= s
        /\ e <= left_win_stop g ->
        l !! i = Some (e - s + 1))
    /\ (right_win_start g <= s
        /\ e <= right_win_stop g (win_length g window) ->
        r !! i = Some (e - s + 1)).
Proof.
  intros Hlen [Hg0 Hg1] Hs He Hse.
  destruct (kernel_at_index g t window i s e Hlen Hs He)
    as (l & r & _ & Hl & Hr & _ & Hli & Hri & _).
  exists l, r. split; [done|]. split; [done|].
  rewrite Hli, Hri.
  unfold u32, left_win_start, left_win_stop, right_win_start,
    right_win_stop in *.
  split; intros H; f_equal.
  - destruct (overlap_uint32_meets
                (Z.max 0 (start g - win_length g window)) (start g - 1) s e)
      as [-> _]; lia.
  - destruct (overlap_uint32_meets (stop g + 1)
                (stop g + win_length g window) s e)
      as [-> _]; [|lia].
    unfold win_length in *. case_decide; lia.
Qed.

(** X22. On arrays of [uint32] of equal length, with the gene and the
    region bounds within [uint32], [Overlap.left] returns, at each index
    whose element meets or touches the region [[w0, w1]] with
    [w1 = gene.start - 1] and
    [w0 = max(0, gene.start - effective_window)], the value
    [max(0, min(w1, stops[i]) - max(w0, starts[i]) + 1)]. *)
Theorem left_overlap_when_element_meets (g : GeneDatum)
    (t : TransposonData) (window : Z) :
  length (starts t) = length (stops t) ->
  u32_arrays t -> u32_gene g -> left_region_u32 g window ->
  let w1 := start g - 1 in
  let w0 := Z.max 0 (start g - win_length g window) in
  exists v, Overlap.left g t window = Ok v
    /\ length v = length (starts t)
    /\ forall (i : nat) (s e : Z),
         starts t !! i = Some s -> stops t !! i = Some e ->
         Z.max w0 s <= Z.min w1 e + 1 ->
         v !! i = Some (Z.max 0 (Z.min w1 e - Z.max w0 s + 1)).
Proof.
  intros Hlen Ht [Hg0 Hg1] [Hw0 Hw1]. cbv zeta.
  unfold left_win_start, left_win_stop in Hw0, Hw1.
  eexists. split; [by apply left_equal_length |]. split.
  - rewrite length_zip_with. lia.
  - intros i s e Hs He Hmeet.
    destruct (u32_arrays_lookup t i s e Ht Hs He) as [Hsr Her].
    rewrite (zip_with_lookup_Z _ _ _ _ _ _ Hs He). f_equal.
    unfold left_win_start, left_win_stop.
    destruct (overlap_uint32_meets
                (Z.max 0 (start g - win_length g window)) (start g - 1) s e)
      as [_ ->]; [|done].
    unfold u32 in *. lia.
Qed.

(** X23. On arrays of [uint32] of equal length, for a gene with
    [start <= stop], every element ([start <= stop]) that overlaps the
    gene body gets the same intra value, [(start - stop + 1) mod 2^32],
    whatever the element: 1 for a gene of one base, and for a longer
    gene (shorter than [2^31]) a value that is never the number of bases
    the element shares with the gene. *)
Theorem intra_ignores_the_element (g : GeneDatum) (t : TransposonData)
    (i : nat) (s e : Z) :
  length (starts t) = length (stops t) ->
  u32_arrays t -> u32_gene g ->
  starts t !! i = Some s -> stops t !! i = Some e ->
  start g <= stop g -> s <= e -> s <= stop g -> start g <= e ->
  exists (v : list Z),
    Overlap.intra g t = Ok v
    /\ v !! i = Some (wrap32 (start g - stop g + 1))
    /\ (start g = stop g -> v !! i = Some 1)
    /\ (start g < stop g < start g + 2 ^ 31 ->
        v !! i ≠ Some (overlap_formula (start g) (stop g) s e)).
Proof.
  intros Hlen Ht [Hg0 Hg1] Hs He Hg Hse Hs1 He1.
  destruct (u32_arrays_lookup t i s e Ht Hs He) as [Hsr Her].
  destruct (kernel_at_index g t 0 i s e Hlen Hs He)
    as (_ & _ & v & _ & _ & Hv & _ & _ & Hvi).
  exists v. split; [done|].
  assert (Hval : intra_formula (start g) (stop g) s e
                 = wrap32 (start g - stop g + 1)).
  { unfold intra_formula. rewrite wrap32_succ.
    replace (Z.min (start g) e - Z.max (stop g) s + 1)
      with (start g - stop g + 1) by lia.
    pose proof (wrap32_range (start g - stop g + 1)) as Hr.
    unfold u32 in Hr. lia. }
  rewrite Hvi, Hval. split; [done|]. split.
  - intros Heq. f_equal. rewrite Heq.
    replace (stop g - stop g + 1) with 1 by lia. reflexivity.
  - intros Hlt [= Hbad]. unfold overlap_formula, u32 in *.
    destruct (decide (start g - stop g + 1 = 0)) as [Hz|Hz].
    + rewrite Hz in Hbad. change (wrap32 0) with 0 in Hbad. lia.
    + rewrite wrap32_negative in Hbad by lia. lia.
Qed.

(** * Further properties of the store and of the orchestrator *)

(** X11. Writing a vector of [n_tes] values to the left dataset at an
    index inside the shape succeeds; the row reads back as the vector
    converted to the element type; every other row of the left dataset,
    and the right and intra datasets, are unchanged. *)
Theorem left_write_read_round_trip (dims : _OverlapDataSink) (s : H5File)
    (g w : nat) (v : list Z) :
  sink_inv dims s ->
  (g < _n_genes dims)%nat -> (w < _n_win dims)%nat ->
  length v = _n_tes dims ->
  exists s', set_left (left_right_slice w g) v s = Ok s'
    /\ getitem3 (left s') g w = Some (cast <$> v)
    /\ (forall g' w', g' ≠ g \/ w' ≠ w ->
          getitem3 (left s') g' w' = getitem3 (left s) g' w')
    /\ right s' = right s /\ intra s' = intra s.
Proof.
  intros Hinv Hg Hw Hv. unfold left_right_slice.
  destruct (set_left_total dims s g w v) as (s' & Hs' & _); try done.
  exists s'. split; [done|].
  apply (set_left_spec dims) in Hs'
    as (row & Hrow & _ & Hget & Hoth & Hr & Hi & [_ Hframe]); [|done].
  rewrite <- Hv, assign_row_same_length in Hrow. injection Hrow as <-.
  split; [done|]. split; [|done].
  intros g' w' Hne. destruct (decide (g' = g)) as [->|Hg'].
  - apply Hoth. by destruct Hne.
  - destruct (Hframe g' Hg') as (Hl & _). unfold getitem3. by rewrite Hl.
Qed.

(** X12. [_filter_gene_names] yields, in request order and with their
    repetitions, exactly the requested names present in the collection,
    and logs exactly the others; nothing is lost and nothing is
    invented. *)
Theorem gene_names_filter_partition (requested : list string)
    (available : gset string) :
  let logged := (_filter_gene_names requested available).1 in
  let yielded := (_filter_gene_names requested available).2 in
  yielded = filter (fun n => n ∈ available) requested
  /\ logged = InvalidGeneName <$> filter (fun n => n ∉ available) requested
  /\ (length yielded + length logged = length requested)%nat
  /\ (forall n, n ∈ yielded <-> n ∈ requested /\ n ∈ available)
  /\ (forall n, InvalidGeneName n ∈ logged <->
                n ∈ requested /\ (n ∉ available)).
Proof.
  cbv zeta. rewrite _filter_gene_names_spec. simpl.
  split; [done|]. split; [done|]. split; [|split].
  - rewrite length_fmap.
    induction requested as [|n ns IH]; simpl; [done|].
    rewrite !filter_cons. repeat case_decide; simpl; try done; lia.
  - intros n. rewrite list_elem_of_filter. tauto.
  - intros n. rewrite list_elem_of_fmap. split.
    + intros (m & [= ->] & Hm). apply list_elem_of_filter in Hm. tauto.
    + intros [Hin Hn]. exists n. split; [done|].
      by apply list_elem_of_filter.
Qed.

(** X13. The index map built from a list binds exactly the keys of the
    list; the index of a key is a position of the list that holds that
    key, the last one; hence distinct keys have distinct indices. *)
Theorem index_map_round_trip `{Countable K} (keys : list K) :
  let idx := dict_enumerate 0 keys ∅ in
  (forall k, k ∈ keys <-> is_Some (idx !! k))
  /\ (forall k j, idx !! k = Some j ->
        (j < length keys)%nat /\ keys !! j = Some k
        /\ forall i, keys !! i = Some k -> (i <= j)%nat)
  /\ (forall k k' j, idx !! k = Some j -> idx !! k' = Some j -> k = k').
Proof.
  cbv zeta. split; [|split].
  - intros k. split.
    + intros Hk. destruct (dict_enumerate_elem _ _ Hk) as [j Hj]. by exists j.
    + intros [j Hj]. apply dict_enumerate_lookup in Hj as [Hj _].
      by eapply list_elem_of_lookup_2.
  - intros k j Hj. destruct (dict_enumerate_lookup _ _ _ Hj) as [Hat Hlt].
    split; [done|]. split; [done|].
    intros i Hi. by eapply dict_enumerate_no_later.
  - intros k k' j. apply dict_enumerate_inj.
Qed.

Lemma dict_enumerate_dom `{Countable K} (keys : list K) (idx : nat)
    (d : gmap K nat) :
  dom (dict_enumerate idx keys d) = list_to_set keys ∪ dom d.
Proof.
  revert idx d. induction keys as [|k keys IH]; intros idx d; simpl.
  - by rewrite (left_id_L ∅ (∪)).
  - rewrite IH, dom_insert_L. apply set_eq. intros x.
    rewrite !elem_of_union, elem_of_singleton. tauto.
Qed.

Lemma remove_dups_length_le `{EqDecision A} (l : list A) :
  (length (remove_dups l) <= length l)%nat.
Proof.
  induction l as [|x l IH]; simpl; [done|].
  destruct (decide_rel elem_of x l); simpl; lia.
Qed.

Lemma remove_dups_length_NoDup `{EqDecision A} (l : list A) :
  length (remove_dups l) = length l <-> NoDup l.
Proof.
  induction l as [|x l IH]; simpl.
  - split; [constructor | done].
  - pose proof (remove_dups_length_le l) as Hle.
    destruct (decide_rel elem_of x l) as [Hin|Hnin]; simpl.
    + split; [lia|]. intros [Hx _]%NoDup_cons. done.
    + rewrite NoDup_cons. split.
      * intros Hlen. split; [done|]. apply IH. lia.
      * intros [_ Hnd]. f_equal. by apply IH.
Qed.

Lemma dict_enumerate_NoDup `{Countable K} (keys : list K) (i : nat) (k : K) :
  NoDup keys -> keys !! i = Some k -> dict_enumerate 0 keys ∅ !! k = Some i.
Proof.
  intros Hnd Hi.
  assert (Hk : k ∈ keys) by by eapply list_elem_of_lookup_2.
  destruct (dict_enumerate_elem _ _ Hk) as [j Hj]. rewrite Hj. f_equal.
  apply dict_enumerate_lookup in Hj as [Hj _].
  by eapply NoDup_lookup.
Qed.

(** X14. The index map has as many entries as the list has distinct
    keys; it has one entry per position exactly when no key is
    repeated, and then every key is bound to its own position. *)
Theorem index_map_size `{Countable K} (keys : list K) :
  let idx := dict_enumerate 0 keys ∅ in
  size idx = length (remove_dups keys)
  /\ (size idx <= length keys)%nat
  /\ (size idx = length keys <-> NoDup keys)
  /\ (NoDup keys -> forall i k, keys !! i = Some k -> idx !! k = Some i).
Proof.
  cbv zeta.
  assert (Hsize : size (dict_enumerate 0 keys ∅) = length (remove_dups keys)).
  { rewrite <- size_dom, dict_enumerate_dom, dom_empty_L, (right_id_L ∅ (∪)).
    assert (list_to_set keys =@{gset K} list_to_set (remove_dups keys)) as ->.
    { apply set_eq. intros x.
      by rewrite !elem_of_list_to_set, elem_of_remove_dups. }
    apply size_list_to_set, NoDup_remove_dups. }
  split; [done|]. rewrite Hsize. split; [apply remove_dups_length_le|].
  split; [apply remove_dups_length_NoDup|].
  intros Hnd i k Hi. by apply dict_enumerate_NoDup.
Qed.


(** X15. When no requested gene name and no requested window is
    repeated, a completed [calculate] leaves no row unwritten: the rows
    at gene index [i] hold the results of the [i]-th filtered gene name,
    and those at window index [j] the results for the [j]-th filtered
    window. *)
Theorem distinct_request_fills_every_row (genes : gmap string GeneDatum)
    (t : TransposonData) (windows : list Z) (gene_names : list string)
    (self : OverlapData) (sink : H5File) (i : nat) (name : string) :
  (calculate genes t windows gene_names).2 = Ok (self, sink) ->
  NoDup gene_names -> NoDup windows ->
  _gene_names self !! i = Some name ->
  exists (gene_datum : GeneDatum) (v : list Z),
    get_gene genes name = Ok gene_datum
    /\ Overlap.intra gene_datum t = Ok v
    /\ getitem2 (intra sink) i = Some (cast <$> v)
    /\ forall j w, _windows self !! j = Some w ->
         exists l r : list Z,
           Overlap.left gene_datum t w = Ok l
           /\ Overlap.right gene_datum t w = Ok r
           /\ getitem3 (left sink) i j = Some (cast <$> l)
           /\ getitem3 (right sink) i j = Some (cast <$> r).
Proof.
  intros (-> & sink0 & Henter & Hloop)%calculate_Ok Hnd Hwd Hi.
  set (self := (_reset t genes windows gene_names).2) in *.
  pose proof (_reset_indexed t genes windows gene_names) as Hix.
  fold self in Hix. destruct Hix as (Hgi & Hwi & _).
  assert (Hnames : NoDup (_gene_names self)).
  { subst self. rewrite _reset_spec. simpl. by apply NoDup_filter. }
  assert (Hwins : NoDup (_windows self)).
  { subst self. rewrite _reset_spec. simpl. by apply NoDup_filter. }
  apply genes_loop_spec in Hloop as (_ & _ & Hst);
    [|apply _reset_indexed|by apply enter_inv].
  destruct (Hst name) as (gd & g_idx & v & Hgd & Hidx & Hv & Gi & Hws).
  { by eapply list_elem_of_lookup_2. }
  rewrite Hgi in Hidx. unfold _map_gene_names_2_indices in Hidx.
  rewrite (dict_enumerate_NoDup _ _ _ Hnames Hi) in Hidx.
  injection Hidx as <-.
  exists gd, v. unfold get_gene. rewrite Hgd.
  split; [done|]. split; [done|]. split; [done|].
  intros j w Hj.
  destruct (Hws w) as (w_idx & l & r & Hw & Hl & Hr & Gl & Gr).
  { by eapply list_elem_of_lookup_2. }
  rewrite Hwi in Hw. unfold _map_windows_2_indices in Hw.
  rewrite (dict_enumerate_NoDup _ _ _ Hwins Hj) in Hw.
  injection Hw as <-. by exists l, r.
Qed.

(** ** The exceptions of [calculate] *)

Lemma bind_Err {A B} (r : res A) (f : A -> res B) (e : exn) :
  r ≫= f = Err e -> r = Err e \/ exists a, r = Ok a /\ f a = Err e.
Proof. destruct r as [a|e']; simpl; [eauto | intros [= ->]; auto]. Qed.

Lemma for_each_Err {A St} (body : St -> A -> res St) (xs : list A)
    (s : St) (e : exn) :
  for_each body xs s = Err e ->
  exists x s1, x ∈ xs /\ body s1 x = Err e.
Proof.
  revert s. induction xs as [|x xs IH]; intros s; simpl; [done|].
  intros [Hb|(s1 & Hb & Hrest)]%bind_Err.
  - exists x, s. split; [by left | done].
  - destruct (IH _ Hrest) as (y & s2 & Hy & Hb2).
    exists y, s2. split; [by right | done].
Qed.

Lemma kernel_Err (g : GeneDatum) (t : TransposonData) (window : Z)
    (e : exn) :
  Overlap.left g t window = Err e \/ Overlap.right g t window = Err e \/
  Overlap.intra g t = Err e ->
  e = BroadcastError.
Proof.
  assert (Hb : forall f a b, np.broadcast2 f a b = Err e ->
                             e = BroadcastError).
  { intros f a b. unfold np.broadcast2.
    destruct a as [|x [|x' a]], b as [|y [|y' b]]; simpl;
      repeat case_decide; congruence. }
  unfold Overlap.left, Overlap.right, Overlap.intra, np.subtract.
  intros [H|[H|H]]; apply bind_Err in H as [H'|(d & _ & H')];
    try discriminate; by eapply Hb.
Qed.

Lemma assign_row_Err (n : nat) (v : list Z) (e : exn) :
  assign_row n v = Err e -> e = StoreError.
Proof.
  unfold assign_row. case_decide; [done|].
  destruct v as [|x [|]]; congruence.
Qed.

Lemma setitem3_Err (d : Dataset3) (dest : nat * nat) (v : list Z) (e : exn) :
  setitem3 d dest v = Err e -> e = StoreError.
Proof.
  unfold setitem3. destruct dest as [g w], (shape3 d) as [[n0 n1] n2].
  case_decide as Hrange; [|congruence].
  intros [Ha|(row & _ & Ha)]%bind_Err; [by eapply assign_row_Err | done].
Qed.

Lemma setitem2_Err (d : Dataset2) (dest : nat) (v : list Z) (e : exn) :
  setitem2 d dest v = Err e -> e = StoreError.
Proof.
  unfold setitem2. destruct (shape2 d) as [n0 n1].
  case_decide as Hrange; [|congruence].
  intros [Ha|(row & _ & Ha)]%bind_Err; [by eapply assign_row_Err | done].
Qed.

Lemma gene_body_Err (self : OverlapData) (genes : gmap string GeneDatum)
    (t : TransposonData) (s : H5File) (gene_name : string) (e : exn) :
  indexed self t ->
  gene_name ∈ _gene_names self -> gene_name ∈ names genes ->
  gene_body self genes t s gene_name = Err e ->
  e = BroadcastError \/ e = StoreError.
Proof.
  intros (Hgi & Hwi & _) Hn Hav. unfold gene_body, get_gene.
  unfold names in Hav. apply elem_of_dom in Hav as [gd Hgd].
  rewrite Hgd, of_option_Some, res_bind_Ok.
  rewrite Hgi. unfold _map_gene_names_2_indices.
  destruct (dict_enumerate_elem _ _ Hn) as [g_idx Hidx].
  rewrite Hidx, of_option_Some, res_bind_Ok.
  intros [H|(v & _ & [H|(s1 & _ & H)]%bind_Err)]%bind_Err.
  - left. eapply (kernel_Err gd t 0). eauto.
  - right. unfold set_intra in H.
    apply bind_Err in H as [H'|(d & _ & H')]; [|done].
    by eapply setitem2_Err.
  - apply for_each_Err in H as (w & s2 & Hw & Hb).
    rename Hb into H. unfold window_body in H.
    apply bind_Err in H as [H1|(l & _ & H1)].
    { left. eapply (kernel_Err gd t w). eauto. }
    apply bind_Err in H1 as [H2|(r & _ & H2)].
    { left. eapply (kernel_Err gd t w). eauto. }
    rewrite Hwi in H2. unfold _map_windows_2_indices in H2.
    destruct (dict_enumerate_elem _ _ Hw) as [w_idx Hwidx].
    rewrite Hwidx, of_option_Some, res_bind_Ok in H2.
    right. apply bind_Err in H2 as [H|(s3 & _ & H)].
    + unfold set_left in H.
      apply bind_Err in H as [H'|(d & _ & H')]; [|done].
      by eapply setitem3_Err.
    + unfold set_right in H.
      apply bind_Err in H as [H'|(d & _ & H')]; [|done].
      by eapply setitem3_Err.
Qed.

(** X16. [calculate] returns normally whenever the store opens and the
    element arrays have equal lengths.  It never raises a key error:
    every name and window it looks up was put in the index maps and is
    present in the gene collection; when it raises the broadcast error
    of the kernel or a rejection of a write by the store, the store had
    opened and the element arrays have unequal lengths. *)
Theorem calculate_outcomes (genes : gmap string GeneDatum)
    (t : TransposonData) (windows : list Z) (gene_names : list string) :
  let dims := _data (_reset t genes windows gene_names).2 in
  (opens dims -> length (starts t) = length (stops t) ->
   exists self sink,
     (calculate genes t windows gene_names).2 = Ok (self, sink))
  /\ forall e, (calculate genes t windows gene_names).2 = Err e ->
       e ≠ KeyError
       /\ (e = BroadcastError \/ e = StoreError ->
           opens dims /\ length (starts t) ≠ length (stops t)).
Proof.
  cbv zeta. split; [apply calculate_completes|].
  intros e Herr0. pose proof Herr0 as Herr.
  rewrite calculate_unfold in Herr. simpl in Herr.
  apply bind_Err in Herr as [Hent|(sink0 & Hent & Herr)].
  - assert (Hno : ~ opens (_data (_reset t genes windows gene_names).2)).
    { intros [s0 Hs0]%enter_opens. congruence. }
    rewrite (enter_Err _ Hno) in Hent. injection Hent as <-.
    destruct output_dir_ok; split; try done; intros [?|?]; done.
  - apply enter_Ok in Hent as (Hopen & _).
    assert (Hlen : length (starts t) ≠ length (stops t)).
    { intros Hlen.
      destruct (calculate_completes genes t windows gene_names Hopen Hlen)
        as (self & sink & Hok). congruence. }
    assert (He : e = BroadcastError \/ e = StoreError).
    { apply bind_Err in Herr as [H|(sink & _ & H)]; [|done].
      apply for_each_Err in H as (n & s1 & Hn & Hb).
      eapply gene_body_Err; [apply _reset_indexed|exact Hn| |exact Hb].
      rewrite _reset_spec in Hn. simpl in Hn.
      by apply list_elem_of_filter in Hn as [? _]. }
    split; [destruct He as [-> | ->]; done | done].
Qed.

(** X17. When the store opens and the element arrays have unequal
    lengths, neither of them 1, [calculate] raises the broadcast error of
    the kernel. *)
Theorem calculate_raises_on_mismatch (genes : gmap string GeneDatum)
    (t : TransposonData) (windows : list Z) (gene_names : list string) :
  opens (_data (_reset t genes windows gene_names).2) ->
  length (starts t) ≠ length (stops t) ->
  length (starts t) ≠ 1%nat -> length (stops t) ≠ 1%nat ->
  (calculate genes t windows gene_names).2 = Err BroadcastError.
Proof.
  intros Hopen Hne Hs He.
  rewrite calculate_unfold. cbv zeta.
  set (self := (_reset t genes windows gene_names).2) in *.
  pose proof (_reset_indexed t genes windows gene_names) as Hix.
  fold self in Hix. destruct Hix as (Hgi & _ & Hdims).
  assert (Hall : forall n, n ∈ _gene_names self -> n ∈ names genes).
  { intros n Hn. subst self. rewrite _reset_spec in Hn. simpl in Hn.
    by apply list_elem_of_filter in Hn as [? _]. }
  cbn [snd].
  destruct (enter_opens _ Hopen) as [sink0 ->]. rewrite res_bind_Ok.
  destruct Hopen as (_ & Hg32 & _). rewrite Hdims in Hg32. simpl in Hg32.
  destruct (_gene_names self) as [|n0 rest] eqn:Hnames; [simpl in Hg32; lia|].
  assert (Hb : forall s, gene_body self genes t s n0 = Err BroadcastError).
  { intros s. unfold gene_body, get_gene.
    assert (Hav0 : n0 ∈ names genes) by (apply Hall; by left).
    unfold names in Hav0. apply elem_of_dom in Hav0 as [gd Hgd].
    rewrite Hgd, of_option_Some, res_bind_Ok.
    rewrite Hgi. unfold _map_gene_names_2_indices.
    destruct (dict_enumerate_elem (n0 :: rest) n0) as [g_idx Hidx];
      [by left|].
    rewrite Hidx, of_option_Some, res_bind_Ok.
    unfold Overlap.intra, np.subtract.
    rewrite broadcast2_mismatch; [done| | |];
      unfold np.minimum, np.maximum; rewrite ?length_fmap; congruence. }
  simpl. by rewrite Hb.
Qed.

(** X24. [calculate] cannot run on fewer than 32 genes: when the file of
    the store can be created but fewer than 32 requested names are
    present in the gene collection, or no requested window is at least
    0, or the collection has no element, [calculate] raises the
    rejection of the chunk shape [(32, n_win, n_tes)], whatever else the
    inputs are; when the file cannot be created it raises the file
    error. *)
Theorem calculate_needs_32_genes (genes : gmap string GeneDatum)
    (t : TransposonData) (windows : list Z) (gene_names : list string) :
  (length (filter (fun n => n ∈ names genes) gene_names) < 32)%nat
  \/ filter (fun w => 0 <= w) windows = [] \/ starts t = [] ->
  (calculate genes t windows gene_names).2
    = Err (if output_dir_ok then ChunkShapeError else FileError).
Proof.
  intros Hsmall. rewrite calculate_unfold. cbv zeta. cbn [snd].
  rewrite enter_Err; [done|].
  rewrite _reset_dims. unfold opens, number_elements. simpl.
  intros (_ & Hg & Hw & Ht & _).
  destruct Hsmall as [H|[H|H]]; [lia | | ]; rewrite H in *; simpl in *; lia.
Qed.

(** ** The sequence of writes *)

Lemma for_each_journal {A} (body : H5File -> A -> res H5File)
    (f : A -> list Write) (xs : list A) :
  (forall x s s', x ∈ xs -> body s x = Ok s' ->
                  journal s' = journal s ++ f x) ->
  forall s s', for_each body xs s = Ok s' ->
               journal s' = journal s ++ concat (f <$> xs).
Proof.
  induction xs as [|x xs IH]; intros Hstep s s'; simpl.
  - intros [= <-]. by rewrite app_nil_r.
  - intros (s1 & Hb & Hrest)%bind_Ok.
    rewrite (IH (fun y u u' Hy => Hstep y u u' (list_elem_of_further _ _ _ Hy))
               _ _ Hrest).
    rewrite (Hstep x s s1 (list_elem_of_here _ _) Hb).
    by rewrite app_assoc.
Qed.

Lemma window_body_journal (self : OverlapData) (gd : GeneDatum)
    (t : TransposonData) (g_idx : nat) (s s' : H5File) (window : Z) :
  window_body self gd t g_idx s window = Ok s' ->
  journal s' = journal s ++ window_writes self g_idx window.
Proof.
  unfold window_body, left_right_slice, window_writes.
  intros (l & _ & (r & _ & (w_idx & Hw%of_option_Ok
    & (s1 & H1 & H2)%bind_Ok)%bind_Ok)%bind_Ok)%bind_Ok.
  rewrite Hw. unfold set_left in H1. unfold set_right in H2.
  apply bind_Ok in H1 as (d1 & _ & [= <-]).
  apply bind_Ok in H2 as (d2 & _ & [= <-]).
  simpl. by rewrite <- app_assoc.
Qed.

Lemma gene_body_journal (self : OverlapData) (genes : gmap string GeneDatum)
    (t : TransposonData) (s s' : H5File) (gene_name : string) :
  gene_body self genes t s gene_name = Ok s' ->
  journal s' = journal s ++ gene_writes self gene_name.
Proof.
  unfold gene_body, intra_slice, gene_writes.
  intros (gd & _ & (g_idx & Hg%of_option_Ok
    & (v & _ & (s1 & H1 & H2)%bind_Ok)%bind_Ok)%bind_Ok)%bind_Ok.
  rewrite Hg. unfold set_intra in H1.
  apply bind_Ok in H1 as (d1 & _ & [= <-]).
  apply (for_each_journal _ (window_writes self g_idx)) in H2.
  - rewrite H2. simpl. by rewrite <- app_assoc.
  - intros w u u' _. apply window_body_journal.
Qed.

Lemma window_writes_length (keys : list Z) (self : OverlapData)
    (g_idx : nat) :
  _window_2_idx self = _map_windows_2_indices (_windows self) ->
  keys ⊆ _windows self ->
  length (concat (window_writes self g_idx <$> keys)) = (2 * length keys)%nat.
Proof.
  intros Hwi. induction keys as [|w ws IH]; intros Hsub; [done|].
  rewrite fmap_cons. cbn [concat]. rewrite length_app, IH by set_solver.
  unfold window_writes. rewrite Hwi. unfold _map_windows_2_indices.
  destruct (dict_enumerate_elem (_windows self) w) as [j ->];
    [set_solver|]. simpl. lia.
Qed.

(** X19. A completed [calculate] has issued its writes gene by gene in
    the order of the filtered names: for each one the intra row first,
    then for each filtered window, in order, the left row and the right
    row, all at the indices of the maps; their number is
    [n_genes * (1 + 2 * n_windows)]. *)
Theorem writes_in_request_order (genes : gmap string GeneDatum)
    (t : TransposonData) (windows : list Z) (gene_names : list string)
    (self : OverlapData) (sink : H5File) :
  (calculate genes t windows gene_names).2 = Ok (self, sink) ->
  journal sink = concat (gene_writes self <$> _gene_names self)
  /\ length (journal sink)
     = (length (_gene_names self) * (1 + 2 * length (_windows self)))%nat.
Proof.
  intros (-> & sink0 & Henter & Hloop)%calculate_Ok.
  set (self := (_reset t genes windows gene_names).2) in *.
  pose proof (_reset_indexed t genes windows gene_names) as Hix.
  fold self in Hix. destruct Hix as (Hgi & Hwi & _).
  apply enter_Ok in Henter as (_ & _ & Hj0 & _).
  apply (for_each_journal _ (gene_writes self)) in Hloop;
    [|intros n u u' _; apply gene_body_journal].
  rewrite Hj0 in Hloop. simpl in Hloop. split; [done|]. rewrite Hloop.
  assert (Hgen : forall ns, ns ⊆ _gene_names self ->
    length (concat (gene_writes self <$> ns))
    = (length ns * (1 + 2 * length (_windows self)))%nat).
  { induction ns as [|n ns IH]; intros Hsub; [done|].
    rewrite fmap_cons. cbn [concat]. rewrite length_app, IH by set_solver.
    unfold gene_writes. rewrite Hgi. unfold _map_gene_names_2_indices.
    destruct (dict_enumerate_elem (_gene_names self) n) as [j ->];
      [set_solver|].
    simpl. rewrite window_writes_length by done. lia. }
  by apply Hgen.
Qed.

(** * Properties of [density.py] *)

(** X20. On the window start clamped at 0, as [rho_left_window] computes
    it, [validate_window] returns the smaller of the requested window
    and the gene start, which is the distance from the window start to
    the gene start; it leaves the window unchanged on any other
    non-zero window start. *)
Theorem validate_window_clamped (g0 window : Z) :
  let window_start := Z.max 0 (g0 - window) in
  validate_window window_start g0 window = Z.min window g0
  /\ window_start + validate_window window_start g0 window = g0
  /\ forall ws, ws ≠ 0 -> validate_window ws g0 window = window.
Proof.
  cbv zeta. unfold validate_window.
  split; [|split]; [case_decide; lia | case_decide; lia |].
  intros ws Hws. by rewrite decide_False.
Qed.

(** X21. [check_shape] returns exactly when the three arrays have the
    same length; otherwise it raises, and the two shapes shown in its
    message are always those of [starts] and [stops], so that for a
    mismatch on [lengths] alone the message shows two equal shapes. *)
Theorem check_shape_outcome (d : TransposonColumns) :
  let n_starts := length (starts (coordinates d)) in
  let n_stops := length (stops (coordinates d)) in
  let n_lengths := length (lengths d) in
  (check_shape d = ShapesAgree <->
   n_starts = n_stops /\ n_starts = n_lengths)
  /\ (forall field a b, check_shape d = MissingFields field a b ->
        a = n_starts /\ b = n_stops
        /\ (field = "stops" <-> n_starts ≠ n_stops)
        /\ (field = "lengths" <->
            n_starts = n_stops /\ n_starts ≠ n_lengths)
        /\ (field = "lengths" -> a = b)).
Proof.
  cbv zeta. unfold check_shape. repeat case_decide; split.
  - split; [done | tauto].
  - intros field a b [= <- <- <-]. repeat split; try done; tauto.
  - split; [done | tauto].
  - intros field a b [= <- <- <-]. repeat split; try done; tauto.
  - split; [tauto | done].
  - done.
Qed.

End Store.

(** * Concrete instances

    The store is instantiated with integer elements and the identity
    conversion, in an output directory where the file can be created,
    on the collections [demo_genes], [chromosome_genes] and
    [demo_tes]. *)

Lemma right_requested_window_counterexample :
  let g := {| start := 50; stop := 200 |} in
  let t := {| starts := [240]; stops := [280] |} in
  length (starts t) = length (stops t)
  /\ 0 < 100
  /\ Overlap.right g t 100 = Ok [11]
  /\ overlap_formula (stop g + 1) (stop g + 100) 240 280 = 41
  /\ ~ (exists v, Overlap.right g t 100 = Ok v
          /\ v !! 0%nat = Some (Z.max 0 (Z.min (stop g + 100) 280
                                         - Z.max (stop g + 1) 240 + 1))).
Proof.
  cbv zeta. split; [reflexivity|]. split; [lia|].
  split; [reflexivity|]. split; [reflexivity|].
  intros (v & Hv & Hat). vm_compute in Hv. injection Hv as <-.
  vm_compute in Hat. discriminate.
Qed.

Lemma right_overlap_effective_window_witness :
  let g := {| start := 50; stop := 200 |} in
  let t := {| starts := [240; 190]; stops := [280; 230] |} in
  length (starts t) = length (stops t)
  /\ u32_arrays t /\ u32_gene g /\ right_region_u32 g 100
  /\ win_length g 100 = Z.min 100 (start g)
  /\ (stop g + win_length g 100 = stop g + 100 <-> 100 <= start g)
  /\ exists v, Overlap.right g t 100 = Ok v
       /\ length v = length (starts t)
       /\ forall (i : nat) (s e : Z),
            starts t !! i = Some s -> stops t !! i = Some e ->
            Z.max (stop g + 1) s
              <= Z.min (stop g + win_length g 100) e + 1 ->
            v !! i = Some (Z.max 0 (Z.min (stop g + win_length g 100) e
                                    - Z.max (stop g + 1) s + 1)).
Proof.
  cbv zeta.
  assert (Ht : u32_arrays {| starts := [240; 190]; stops := [280; 230] |}).
  { split; repeat constructor; simpl; lia. }
  assert (Hg : u32_gene {| start := 50; stop := 200 |}).
  { split; split; simpl; lia. }
  assert (Hr : right_region_u32 {| start := 50; stop := 200 |} 100).
  { split; split; vm_compute; congruence. }
  split; [reflexivity|]. split; [exact Ht|]. split; [exact Hg|].
  split; [exact Hr|].
  exact (right_overlap_effective_window
           {| start := 50; stop := 200 |}
           {| starts := [240; 190]; stops := [280; 230] |} 100
           eq_refl Ht Hg Hr).
Defined.

Lemma overlaps_nonnegative_witness :
  length (starts demo_tes) = length (stops demo_tes)
  /\ exists l i r : list Z,
       Overlap.left {| start := 100; stop := 200 |} demo_tes 50 = Ok l
       /\ Overlap.intra {| start := 100; stop := 200 |} demo_tes = Ok i
       /\ Overlap.right {| start := 100; stop := 200 |} demo_tes 50 = Ok r
       /\ Forall (fun x => 0 <= x) l
       /\ Forall (fun x => 0 <= x) i
       /\ Forall (fun x => 0 <= x) r.
Proof.
  split; [reflexivity|].
  apply (overlaps_nonnegative {| start := 100; stop := 200 |} demo_tes 50).
  reflexivity.
Defined.

Lemma zero_window_kept_counterexample :
  let windows := [50; 0; -7] in
  let self := (_reset demo_tes demo_genes windows ["g1"]).2 in
  0 ∈ windows /\ 0 <= 0
  /\ _filter_windows windows = ([InvalidWindow (-7)], [50; 0])
  /\ 0 ∈ (_filter_windows windows).2
  /\ 0 ∈ _windows self
  /\ _window_2_idx self !! 0 = Some 1%nat.
Proof.
  cbv zeta. split; [by repeat constructor|]. split; [lia|].
  split; [reflexivity|]. split; [|split].
  - vm_compute. by repeat constructor.
  - vm_compute. by repeat constructor.
  - vm_compute. reflexivity.
Qed.

Lemma negative_windows_dropped_witness :
  let windows := [50; 0; -7] in
  let log := (_reset demo_tes demo_genes windows ["g1"]).1 in
  let self := (_reset demo_tes demo_genes windows ["g1"]).2 in
  (-7) ∈ windows /\ -7 < 0
  /\ InvalidWindow (-7) ∈ log /\ ((-7) ∉ _windows self)
  /\ _window_2_idx self !! (-7) = None.
Proof.
  cbv zeta. split; [by repeat constructor|]. split; [lia|].
  apply (negative_windows_dropped (fun z => z) true demo_tes demo_genes
           [50; 0; -7] ["g1"]).
  - by repeat constructor.
  - lia.
Defined.

(** The store opens on the requests used below. *)
Ltac store_opens :=
  unfold opens; rewrite _reset_dims; split; [reflexivity|];
  vm_compute; repeat split; lia.

Ltac by_reset Hrun :=
  rewrite (proj1 (calculate_Ok _ _ _ _ _ _ _ _ Hrun)).

Lemma shapes_count_duplicates_counterexample :
  let names := chromosome_names ++ ["gene00"] in
  let self := (_reset demo_tes chromosome_genes [50; 50] names).2 in
  exists sink,
    enter (fun z : Z => z) true (_data self) = Ok sink
    /\ shape3 (left sink) = (33, 2, 2)%nat
    /\ shape2 (intra sink) = (33, 2)%nat
    /\ length (remove_dups (_gene_names self)) = 32%nat
    /\ length (remove_dups (_windows self)) = 1%nat
    /\ shape3 (left sink) ≠
         (length (remove_dups (_gene_names self)),
          length (remove_dups (_windows self)),
          number_elements demo_tes)
    /\ shape2 (intra sink) ≠
         (length (remove_dups (_gene_names self)), number_elements demo_tes).
Proof.
  cbv zeta.
  destruct (enter_opens (fun z : Z => z) true
              (_data (_reset demo_tes chromosome_genes [50; 50]
                        (chromosome_names ++ ["gene00"])).2))
    as [sink Hsink]; [store_opens|].
  exists sink. split; [exact Hsink|].
  apply enter_inv in Hsink as (Sl & _ & Si & _).
  rewrite Sl, Si.
  repeat split; try (vm_compute; reflexivity);
    intros H; vm_compute in H; discriminate.
Qed.

Lemma dataset_shapes_filtered_lengths_witness :
  exists self sink,
    (calculate (fun z : Z => z) true chromosome_genes demo_tes [50; 50; -1]
               (chromosome_names ++ ["absent"; "gene00"])).2
      = Ok (self, sink)
    /\ shape3 (left sink) = (33, 2, 2)%nat
    /\ shape3 (right sink) = (33, 2, 2)%nat
    /\ shape2 (intra sink) = (33, 2)%nat
    /\ wf3 (left sink) /\ wf3 (right sink) /\ wf2 (intra sink).
Proof.
  destruct (calculate_completes (fun z : Z => z) true chromosome_genes
              demo_tes [50; 50; -1]
              (chromosome_names ++ ["absent"; "gene00"]))
    as (self & sink & Hrun); [store_opens | reflexivity |].
  exists self, sink. split; [exact Hrun|].
  exact (proj2 (proj2 (dataset_shapes_filtered_lengths (fun z : Z => z)
                  true chromosome_genes demo_tes [50; 50; -1]
                  (chromosome_names ++ ["absent"; "gene00"])))
           self sink Hrun).
Defined.


Lemma zero_window_changes_outcome_counterexample :
  Forall (fun n => n ∈ names chromosome_genes) chromosome_names
  /\ Forall (fun w => 0 < w) [50]
  /\ with_invalid (fun w => 0 < w) [50] [50; 0]
  /\ (exists self sink,
        (calculate (fun z : Z => z) true chromosome_genes demo_tes [50]
                   chromosome_names).2 = Ok (self, sink)
        /\ shape3 (left sink) = (32, 1, 2)%nat
        /\ _window_2_idx self !! 0 = None)
  /\ (exists self sink,
        (calculate (fun z : Z => z) true chromosome_genes demo_tes [50; 0]
                   chromosome_names).2 = Ok (self, sink)
        /\ shape3 (left sink) = (32, 2, 2)%nat
        /\ _window_2_idx self !! 0 = Some 1%nat)
  /\ (calculate (fun z : Z => z) true chromosome_genes demo_tes [50; 0]
                chromosome_names).2
     ≠ (calculate (fun z : Z => z) true chromosome_genes demo_tes [50]
                  chromosome_names).2.
Proof.
  destruct (calculate_completes (fun z : Z => z) true chromosome_genes
              demo_tes [50] chromosome_names)
    as (self1 & sink1 & Hrun1); [store_opens | reflexivity |].
  destruct (calculate_completes (fun z : Z => z) true chromosome_genes
              demo_tes [50; 0] chromosome_names)
    as (self2 & sink2 & Hrun2); [store_opens | reflexivity |].
  split; [|split; [|split; [|split; [|split]]]].
  - apply (bool_decide_unpack _). vm_compute. exact I.
  - apply Forall_cons. split; [lia | constructor].
  - apply with_invalid_keep, with_invalid_add; [lia | constructor].
  - exists self1, sink1. split; [exact Hrun1|].
    destruct (calculate_sink_inv _ _ _ _ _ _ _ _ Hrun1) as (-> & _).
    by_reset Hrun1. split; vm_compute; reflexivity.
  - exists self2, sink2. split; [exact Hrun2|].
    destruct (calculate_sink_inv _ _ _ _ _ _ _ _ Hrun2) as (-> & _).
    by_reset Hrun2. split; vm_compute; reflexivity.
  - rewrite Hrun1, Hrun2. intros [= Hself _].
    rewrite (proj1 (calculate_Ok _ _ _ _ _ _ _ _ Hrun1)) in Hself.
    rewrite (proj1 (calculate_Ok _ _ _ _ _ _ _ _ Hrun2)) in Hself.
    apply (f_equal (fun st => length (_windows st))) in Hself.
    vm_compute in Hself. discriminate.
Qed.

Lemma invalid_entries_ignored_witness :
  let names' := "absent" :: chromosome_names ++ ["other"] in
  Forall (fun n => n ∈ names chromosome_genes) chromosome_names
  /\ Forall (fun w => 0 < w) [50; 20]
  /\ with_invalid (fun n => n ∈ names chromosome_genes) chromosome_names
       names'
  /\ with_invalid (fun w => 0 <= w) [50; 20] [50; -4; 20]
  /\ (calculate (fun z : Z => z) true chromosome_genes demo_tes [50; -4; 20]
                names').2
     = (calculate (fun z : Z => z) true chromosome_genes demo_tes [50; 20]
                  chromosome_names).2
  /\ exists self sink,
       (calculate (fun z : Z => z) true chromosome_genes demo_tes [50; 20]
                  chromosome_names).2 = Ok (self, sink).
Proof.
  cbv zeta.
  assert (Hn : Forall (fun n => n ∈ names chromosome_genes) chromosome_names).
  { apply (bool_decide_unpack _). vm_compute. exact I. }
  assert (Hw : Forall (fun w => 0 < w) [50; 20]).
  { repeat (apply Forall_cons; split); try constructor; lia. }
  assert (Habs : forall n, n = "absent" \/ n = "other" ->
                           n ∉ names chromosome_genes).
  { intros n [-> | ->]; unfold names; intros [x Hx]%elem_of_dom;
      vm_compute in Hx; discriminate. }
  assert (Hkeep : forall l, with_invalid (fun n => n ∈ names chromosome_genes)
                              l (l ++ ["other"])).
  { induction l as [|x l IH]; simpl.
    - apply with_invalid_add; [apply Habs; auto | constructor].
    - by apply with_invalid_keep. }
  assert (Hn' : with_invalid (fun n => n ∈ names chromosome_genes)
                  chromosome_names
                  ("absent" :: chromosome_names ++ ["other"])).
  { apply with_invalid_add; [apply Habs; auto | apply Hkeep]. }
  assert (Hw' : with_invalid (fun w => 0 <= w) [50; 20] [50; -4; 20]).
  { apply with_invalid_keep, with_invalid_add;
      [lia | apply with_invalid_keep; constructor]. }
  split; [exact Hn|]. split; [exact Hw|]. split; [exact Hn'|].
  split; [exact Hw'|]. split.
  - exact (invalid_entries_ignored (fun z : Z => z) true chromosome_genes
             demo_tes [50; 20] [50; -4; 20] chromosome_names
             ("absent" :: chromosome_names ++ ["other"]) Hn Hw Hn' Hw').
  - apply calculate_completes; [store_opens | reflexivity].
Defined.

Lemma duplicate_name_last_index_witness :
  exists self sink,
    (calculate (fun z : Z => z) true chromosome_genes demo_tes [50]
               (chromosome_names ++ ["gene00"])).2 = Ok (self, sink)
    /\ _gene_names self !! 0%nat = Some "gene00"
    /\ _gene_names self !! 32%nat = Some "gene00"
    /\ (0 < 32)%nat
    /\ _gene_name_2_idx self !! "gene00" = Some 32%nat
    /\ Forall (fun e => w_gene e ≠ 0%nat) (journal sink)
    /\ data2 (intra sink) !! 0%nat
       = Some (replicate (_n_tes (_data self)) 0)
    /\ _n_tes (_data self) = 2%nat /\ _n_win (_data self) = 1%nat.
Proof.
  destruct (calculate_completes (fun z : Z => z) true chromosome_genes
              demo_tes [50] (chromosome_names ++ ["gene00"]))
    as (self & sink & Hrun); [store_opens | reflexivity |].
  assert (H0 : _gene_names self !! 0%nat = Some "gene00").
  { by_reset Hrun. vm_compute. reflexivity. }
  assert (H32 : _gene_names self !! 32%nat = Some "gene00").
  { by_reset Hrun. vm_compute. reflexivity. }
  assert (Hlast : forall k, (32 < k)%nat ->
                            _gene_names self !! k ≠ Some "gene00").
  { intros k Hk. rewrite lookup_ge_None_2; [done|].
    by_reset Hrun.
    assert (length (_gene_names
              (_reset demo_tes chromosome_genes [50]
                 (chromosome_names ++ ["gene00"])).2) = 33%nat) as ->
      by (vm_compute; reflexivity).
    lia. }
  destruct (duplicate_name_last_index (fun z : Z => z) true
              chromosome_genes demo_tes [50]
              (chromosome_names ++ ["gene00"]) self sink "gene00"
              0%nat 32%nat Hrun H0 H32 ltac:(lia) Hlast)
    as (Hbind & _ & _ & Hjournal & Hi & _).
  exists self, sink. split; [exact Hrun|].
  split; [exact H0|]. split; [exact H32|]. split; [lia|].
  split; [exact Hbind|]. split; [exact Hjournal|]. split; [exact Hi|].
  by_reset Hrun. split; vm_compute; reflexivity.
Defined.

(** ** Instances of the further properties *)

Lemma flank_overlap_bounded_witness :
  let g := {| start := 100; stop := 200 |} in
  let t := {| starts := [90; 10]; stops := [220; 60] |} in
  length (starts t) = length (stops t)
  /\ u32_arrays t /\ u32_gene g
  /\ left_region_u32 g 50 /\ right_region_u32 g 50
  /\ starts t !! 0%nat = Some 90 /\ stops t !! 0%nat = Some 220
  /\ exists (l r : list Z),
       Overlap.left g t 50 = Ok l /\ Overlap.right g t 50 = Ok r
       /\ (exists x, l !! 0%nat = Some x
             /\ x <= 220 - 90 + 1 /\ x <= win_length g 50)
       /\ (exists y, r !! 0%nat = Some y
             /\ y <= 220 - 90 + 1 /\ y <= win_length g 50).
Proof.
  cbv zeta.
  assert (Ht : u32_arrays {| starts := [90; 10]; stops := [220; 60] |}).
  { split; repeat constructor; simpl; lia. }
  assert (Hg : u32_gene {| start := 100; stop := 200 |}).
  { split; split; simpl; lia. }
  assert (Hl : left_region_u32 {| start := 100; stop := 200 |} 50).
  { split; split; vm_compute; congruence. }
  assert (Hr : right_region_u32 {| start := 100; stop := 200 |} 50).
  { split; split; vm_compute; congruence. }
  split; [reflexivity|]. split; [exact Ht|]. split; [exact Hg|].
  split; [exact Hl|]. split; [exact Hr|].
  split; [reflexivity|]. split; [reflexivity|].
  destruct (flank_overlap_bounded {| start := 100; stop := 200 |}
              {| starts := [90; 10]; stops := [220; 60] |} 50 0%nat 90 220
              eq_refl Ht Hg Hl Hr eq_refl eq_refl)
    as (l & r & Hlv & Hrv & Hleft & Hright).
  exists l, r. split; [exact Hlv|]. split; [exact Hrv|]. split.
  - apply Hleft. vm_compute. discriminate.
  - apply Hright. vm_compute. discriminate.
Defined.

Lemma flank_overlap_apart_wraps_witness :
  let g := {| start := 100; stop := 200 |} in
  length (starts demo_tes) = length (stops demo_tes)
  /\ u32_arrays demo_tes
  /\ left_region_u32 g 50 /\ right_region_u32 g 50
  /\ starts demo_tes !! 0%nat = Some 180 /\ stops demo_tes !! 0%nat = Some 220
  /\ Z.min (left_win_stop g) 220 + 1
       < Z.max (left_win_start g (win_length g 50)) 180
  /\ exists l x, Overlap.left g demo_tes 50 = Ok l
       /\ l !! 0%nat = Some x /\ 0 < x /\ x = 4294967216.
Proof.
  cbv zeta.
  assert (Ht : u32_arrays demo_tes).
  { split; repeat constructor; simpl; lia. }
  assert (Hl : left_region_u32 {| start := 100; stop := 200 |} 50).
  { split; split; vm_compute; congruence. }
  assert (Hr : right_region_u32 {| start := 100; stop := 200 |} 50).
  { split; split; vm_compute; congruence. }
  assert (Hapart : Z.min (left_win_stop {| start := 100; stop := 200 |}) 220
                   + 1
                   < Z.max (left_win_start {| start := 100; stop := 200 |}
                              (win_length {| start := 100; stop := 200 |} 50))
                       180) by (vm_compute; reflexivity).
  split; [reflexivity|]. split; [exact Ht|]. split; [exact Hl|].
  split; [exact Hr|]. split; [reflexivity|]. split; [reflexivity|].
  split; [exact Hapart|].
  destruct (flank_overlap_apart_wraps {| start := 100; stop := 200 |}
              demo_tes 50 0%nat 180 220 eq_refl Ht Hl Hr eq_refl eq_refl)
    as (l & r & Hlv & _ & Hleft & _).
  destruct (Hleft Hapart) as (x & Hx & Hpos & Hval).
  exists l, x. split; [exact Hlv|]. split; [exact Hx|].
  split; [exact Hpos|]. rewrite Hval. vm_compute. reflexivity.
Defined.

Lemma flank_overlap_contained_witness :
  let g := {| start := 100; stop := 200 |} in
  let t := {| starts := [60; 210]; stops := [80; 240] |} in
  length (starts t) = length (stops t)
  /\ u32_gene g
  /\ starts t !! 1%nat = Some 210 /\ stops t !! 1%nat = Some 240
  /\ 210 <= 240
  /\ (right_win_start g <= 210 /\ 240 <= right_win_stop g (win_length g 50))
  /\ starts t !! 0%nat = Some 60 /\ stops t !! 0%nat = Some 80
  /\ 60 <= 80
  /\ (left_win_start g (win_length g 50) <= 60 /\ 80 <= left_win_stop g)
  /\ exists l r,
       Overlap.left g t 50 = Ok l /\ l !! 0%nat = Some (80 - 60 + 1)
       /\ Overlap.right g t 50 = Ok r /\ r !! 1%nat = Some (240 - 210 + 1).
Proof.
  cbv zeta.
  assert (Hg : u32_gene {| start := 100; stop := 200 |}).
  { split; split; simpl; lia. }
  split; [reflexivity|]. split; [exact Hg|].
  split; [reflexivity|]. split; [reflexivity|]. split; [lia|].
  split; [vm_compute; split; discriminate|].
  split; [reflexivity|]. split; [reflexivity|]. split; [lia|].
  split; [vm_compute; split; discriminate|].
  destruct (flank_overlap_contained {| start := 100; stop := 200 |}
              {| starts := [60; 210]; stops := [80; 240] |}
              50 1%nat 210 240 eq_refl Hg eq_refl eq_refl)
    as (l1 & r & _ & Hr & _ & Hfull); [lia|].
  destruct (flank_overlap_contained {| start := 100; stop := 200 |}
              {| starts := [60; 210]; stops := [80; 240] |}
              50 0%nat 60 80 eq_refl Hg eq_refl eq_refl)
    as (l & r0 & Hl & _ & Hfull0 & _); [lia|].
  exists l, r. split; [exact Hl|]. split.
  { apply Hfull0. vm_compute. split; discriminate. }
  split; [exact Hr|]. apply Hfull.
  vm_compute. split; discriminate.
Defined.

Lemma left_overlap_when_element_meets_witness :
  let g := {| start := 50; stop := 80 |} in
  let t := {| starts := [0; 40; 60]; stops := [10; 55; 70] |} in
  length (starts t) = length (stops t)
  /\ u32_arrays t /\ u32_gene g /\ left_region_u32 g 100
  /\ exists v, Overlap.left g t 100 = Ok v
       /\ length v = length (starts t)
       /\ forall (i : nat) (s e : Z),
            starts t !! i = Some s -> stops t !! i = Some e ->
            Z.max (Z.max 0 (start g - win_length g 100)) s
              <= Z.min (start g - 1) e + 1 ->
            v !! i = Some (Z.max 0 (Z.min (start g - 1) e
                     - Z.max (Z.max 0 (start g - win_length g 100)) s + 1)).
Proof.
  cbv zeta.
  assert (Ht : u32_arrays
                 {| starts := [0; 40; 60]; stops := [10; 55; 70] |}).
  { split; repeat constructor; simpl; lia. }
  assert (Hg : u32_gene {| start := 50; stop := 80 |}).
  { split; split; simpl; lia. }
  assert (Hl : left_region_u32 {| start := 50; stop := 80 |} 100).
  { split; split; vm_compute; congruence. }
  split; [reflexivity|]. split; [exact Ht|]. split; [exact Hg|].
  split; [exact Hl|].
  exact (left_overlap_when_element_meets {| start := 50; stop := 80 |}
           {| starts := [0; 40; 60]; stops := [10; 55; 70] |} 100
           eq_refl Ht Hg Hl).
Defined.

Lemma intra_ignores_the_element_witness :
  let g := {| start := 100; stop := 200 |} in
  length (starts demo_tes) = length (stops demo_tes)
  /\ u32_arrays demo_tes /\ u32_gene g
  /\ starts demo_tes !! 0%nat = Some 180 /\ stops demo_tes !! 0%nat = Some 220
  /\ start g <= stop g /\ 180 <= 220 /\ 180 <= stop g /\ start g <= 220
  /\ start g < stop g < start g + 2 ^ 31
  /\ exists v, Overlap.intra g demo_tes = Ok v
       /\ v !! 0%nat = Some (wrap32 (start g - stop g + 1))
       /\ v !! 0%nat ≠ Some (overlap_formula (start g) (stop g) 180 220).
Proof.
  cbv zeta.
  assert (Ht : u32_arrays demo_tes).
  { split; repeat constructor; simpl; lia. }
  assert (Hg : u32_gene {| start := 100; stop := 200 |}).
  { split; split; simpl; lia. }
  split; [reflexivity|]. split; [exact Ht|]. split; [exact Hg|].
  split; [reflexivity|]. split; [reflexivity|].
  repeat (split; [simpl; lia|]).
  destruct (intra_ignores_the_element {| start := 100; stop := 200 |}
              demo_tes 0%nat 180 220 eq_refl Ht Hg eq_refl eq_refl)
    as (v & Hv & Hval & _ & Hne); [simpl; lia ..|].
  exists v. split; [exact Hv|]. split; [exact Hval|].
  apply Hne. simpl. lia.
Defined.

Lemma kernel_raises_on_mismatch_witness :
  let g := {| start := 100; stop := 200 |} in
  let t := {| starts := [180; 10; 30]; stops := [220; 60] |} in
  length (starts t) ≠ length (stops t)
  /\ length (starts t) ≠ 1%nat /\ length (stops t) ≠ 1%nat
  /\ Overlap.left g t 50 = Err BroadcastError
  /\ Overlap.intra g t = Err BroadcastError
  /\ Overlap.right g t 50 = Err BroadcastError.
Proof.
  cbv zeta. repeat (split; [simpl; lia|]).
  apply (kernel_raises_on_mismatch {| start := 100; stop := 200 |}
           {| starts := [180; 10; 30]; stops := [220; 60] |} 50);
    simpl; lia.
Defined.

Lemma index_map_round_trip_witness :
  let keys := ["g1"; "g2"; "g1"] in
  let idx := dict_enumerate 0 keys ∅ in
  idx !! "g1" = Some 2%nat
  /\ (2 < length keys)%nat /\ keys !! 2%nat = Some "g1"
  /\ forall i, keys !! i = Some "g1" -> (i <= 2)%nat.
Proof.
  cbv zeta.
  assert (Hidx : dict_enumerate 0 ["g1"; "g2"; "g1"] ∅ !! "g1" = Some 2%nat)
    by (vm_compute; reflexivity).
  split; [exact Hidx|].
  exact (proj1 (proj2 (index_map_round_trip ["g1"; "g2"; "g1"]))
           "g1" 2%nat Hidx).
Defined.

Lemma index_map_size_witness :
  let keys := ["g1"; "g2"; "g3"] in
  NoDup keys
  /\ forall i k, keys !! i = Some k -> dict_enumerate 0 keys ∅ !! k = Some i.
Proof.
  cbv zeta.
  assert (Hnd : NoDup ["g1"; "g2"; "g3"]).
  { apply (bool_decide_unpack _). vm_compute. exact I. }
  split; [exact Hnd|].
  exact (proj2 (proj2 (proj2 (index_map_size ["g1"; "g2"; "g3"]))) Hnd).
Defined.

Lemma validate_window_clamped_witness :
  30 ≠ 0 /\ validate_window 30 50 100 = 100.
Proof.
  split; [lia|].
  exact (proj2 (proj2 (validate_window_clamped 50 100)) 30 ltac:(lia)).
Defined.

Lemma check_shape_outcome_witness :
  let d := {| coordinates := {| starts := [1; 5]; stops := [3; 9] |};
              lengths := [3] |} in
  check_shape d = MissingFields "lengths" 2 2
  /\ 2%nat = length (starts (coordinates d))
  /\ 2%nat = length (stops (coordinates d)).
Proof.
  cbv zeta.
  assert (H : check_shape
                {| coordinates := {| starts := [1; 5]; stops := [3; 9] |};
                   lengths := [3] |} = MissingFields "lengths" 2 2)
    by reflexivity.
  split; [exact H|].
  destruct (proj2 (check_shape_outcome
                     {| coordinates := {| starts := [1; 5]; stops := [3; 9] |};
                        lengths := [3] |}) "lengths" 2%nat 2%nat H)
    as (Ha & Hb & _).
  split; [exact Ha | exact Hb].
Defined.

Lemma calculate_needs_32_genes_witness :
  (length (filter (fun n => n ∈ names demo_genes) ["g1"; "absent"; "g2"])
     < 32)%nat
  /\ (calculate (fun z : Z => z) true demo_genes demo_tes [50]
                ["g1"; "absent"; "g2"]).2 = Err ChunkShapeError
  /\ (calculate (fun z : Z => z) false demo_genes demo_tes [50]
                ["g1"; "absent"; "g2"]).2 = Err FileError.
Proof.
  assert (H : (length (filter (fun n => n ∈ names demo_genes)
                         ["g1"; "absent"; "g2"]) < 32)%nat).
  { vm_compute. lia. }
  split; [exact H|]. split.
  - exact (calculate_needs_32_genes (fun z : Z => z) true demo_genes
             demo_tes [50] ["g1"; "absent"; "g2"] (or_introl H)).
  - exact (calculate_needs_32_genes (fun z : Z => z) false demo_genes
             demo_tes [50] ["g1"; "absent"; "g2"] (or_introl H)).
Defined.

Lemma left_write_read_round_trip_witness :
  let dims := {| _n_genes := 32; _n_tes := 2; _n_win := 1 |} in
  exists s,
    enter (fun z : Z => z) true dims = Ok s
    /\ sink_inv dims s
    /\ (5 < _n_genes dims)%nat /\ (0 < _n_win dims)%nat
    /\ length [7; 9] = _n_tes dims
    /\ exists s',
         set_left (fun z : Z => z) (left_right_slice 0 5) [7; 9] s = Ok s'
         /\ getitem3 (left s') 5 0 = Some ((fun z : Z => z) <$> [7; 9])
         /\ (forall g' w', g' ≠ 5%nat \/ w' ≠ 0%nat ->
               getitem3 (left s') g' w' = getitem3 (left s) g' w')
         /\ right s' = right s /\ intra s' = intra s.
Proof.
  cbv zeta.
  destruct (enter_opens (fun z : Z => z) true
              {| _n_genes := 32; _n_tes := 2; _n_win := 1 |})
    as [s Hs]; [unfold opens; simpl; split; [reflexivity | lia]|].
  pose proof (enter_inv _ _ _ _ Hs) as Hinv.
  exists s. split; [exact Hs|]. split; [exact Hinv|].
  split; [simpl; lia|]. split; [simpl; lia|]. split; [reflexivity|].
  apply (left_write_read_round_trip (fun z : Z => z)
           {| _n_genes := 32; _n_tes := 2; _n_win := 1 |} s 5 0 [7; 9]);
    [exact Hinv | simpl; lia | simpl; lia | reflexivity].
Defined.

Lemma distinct_request_fills_every_row_witness :
  exists self sink,
    (calculate (fun z : Z => z) true chromosome_genes demo_tes [50; 0]
               chromosome_names).2 = Ok (self, sink)
    /\ NoDup chromosome_names /\ NoDup [50; 0]
    /\ _gene_names self !! 7%nat = Some "gene07"
    /\ exists (gene_datum : GeneDatum) (v : list Z),
         get_gene chromosome_genes "gene07" = Ok gene_datum
         /\ Overlap.intra gene_datum demo_tes = Ok v
         /\ getitem2 (intra sink) 7 = Some ((fun z : Z => z) <$> v)
         /\ forall j w, _windows self !! j = Some w ->
              exists l r : list Z,
                Overlap.left gene_datum demo_tes w = Ok l
                /\ Overlap.right gene_datum demo_tes w = Ok r
                /\ getitem3 (left sink) 7 j = Some ((fun z : Z => z) <$> l)
                /\ getitem3 (right sink) 7 j
                   = Some ((fun z : Z => z) <$> r).
Proof.
  destruct (calculate_completes (fun z : Z => z) true chromosome_genes
              demo_tes [50; 0] chromosome_names)
    as (self & sink & Hrun); [store_opens | reflexivity |].
  assert (Hn : NoDup chromosome_names).
  { apply (bool_decide_unpack _). vm_compute. exact I. }
  assert (Hw : NoDup [50; 0]).
  { apply (bool_decide_unpack _). vm_compute. exact I. }
  assert (H7 : _gene_names self !! 7%nat = Some "gene07").
  { by_reset Hrun. vm_compute. reflexivity. }
  exists self, sink. split; [exact Hrun|]. split; [exact Hn|].
  split; [exact Hw|]. split; [exact H7|].
  exact (distinct_request_fills_every_row (fun z : Z => z) true
           chromosome_genes demo_tes [50; 0] chromosome_names self sink
           7%nat "gene07" Hrun Hn Hw H7).
Defined.

Lemma calculate_outcomes_witness :
  let t := {| starts := [180; 10; 30]; stops := [220; 60] |} in
  opens true (_data (_reset demo_tes chromosome_genes [50]
                       chromosome_names).2)
  /\ length (starts demo_tes) = length (stops demo_tes)
  /\ (exists self sink,
        (calculate (fun z : Z => z) true chromosome_genes demo_tes [50]
                   chromosome_names).2 = Ok (self, sink))
  /\ (calculate (fun z : Z => z) true chromosome_genes t [50]
                chromosome_names).2 = Err BroadcastError
  /\ opens true (_data (_reset t chromosome_genes [50] chromosome_names).2)
  /\ length (starts t) ≠ length (stops t).
Proof.
  cbv zeta.
  assert (Hopen : opens true (_data (_reset demo_tes chromosome_genes [50]
                                       chromosome_names).2))
    by store_opens.
  assert (Herr : (calculate (fun z : Z => z) true chromosome_genes
                    {| starts := [180; 10; 30]; stops := [220; 60] |} [50]
                    chromosome_names).2 = Err BroadcastError).
  { vm_compute. reflexivity. }
  split; [exact Hopen|]. split; [reflexivity|].
  split.
  - exact (proj1 (calculate_outcomes (fun z : Z => z) true chromosome_genes
                    demo_tes [50] chromosome_names) Hopen eq_refl).
  - split; [exact Herr|].
    exact (proj2 (proj2 (calculate_outcomes (fun z : Z => z) true
                           chromosome_genes
                           {| starts := [180; 10; 30]; stops := [220; 60] |}
                           [50] chromosome_names) BroadcastError Herr)
             (or_introl eq_refl)).
Defined.

Lemma calculate_raises_on_mismatch_witness :
  let t := {| starts := [180; 10; 30]; stops := [220; 60] |} in
  opens true (_data (_reset t chromosome_genes [50] chromosome_names).2)
  /\ length (starts t) ≠ length (stops t)
  /\ length (starts t) ≠ 1%nat /\ length (stops t) ≠ 1%nat
  /\ (calculate (fun z : Z => z) true chromosome_genes t [50]
                chromosome_names).2 = Err BroadcastError.
Proof.
  cbv zeta.
  assert (Hopen : opens true
            (_data (_reset {| starts := [180; 10; 30]; stops := [220; 60] |}
                      chromosome_genes [50] chromosome_names).2))
    by store_opens.
  assert (H1 : length [180; 10; 30] ≠ length [220; 60])
    by (simpl; lia).
  assert (H2 : length [180; 10; 30] ≠ 1%nat) by (simpl; lia).
  assert (H3 : length [220; 60] ≠ 1%nat) by (simpl; lia).
  split; [exact Hopen|]. split; [exact H1|]. split; [exact H2|].
  split; [exact H3|].
  exact (calculate_raises_on_mismatch (fun z : Z => z) true chromosome_genes
           {| starts := [180; 10; 30]; stops := [220; 60] |} [50]
           chromosome_names Hopen H1 H2 H3).
Defined.

Lemma writes_in_request_order_witness :
  exists self sink,
    (calculate (fun z : Z => z) true chromosome_genes demo_tes [50; 20]
               chromosome_names).2 = Ok (self, sink)
    /\ journal sink = concat (gene_writes self <$> _gene_names self)
    /\ length (journal sink)
       = (length (_gene_names self) * (1 + 2 * length (_windows self)))%nat
    /\ length (_gene_names self) = 32%nat
    /\ length (_windows self) = 2%nat
    /\ gene_writes self "gene01"
       = [{| w_dataset := INTRA; w_gene := 1; w_window := None |};
          {| w_dataset := LEFT; w_gene := 1; w_window := Some 0%nat |};
          {| w_dataset := RIGHT; w_gene := 1; w_window := Some 0%nat |};
          {| w_dataset := LEFT; w_gene := 1; w_window := Some 1%nat |};
          {| w_dataset := RIGHT; w_gene := 1; w_window := Some 1%nat |}].
Proof.
  destruct (calculate_completes (fun z : Z => z) true chromosome_genes
              demo_tes [50; 20] chromosome_names)
    as (self & sink & Hrun); [store_opens | reflexivity |].
  exists self, sink. split; [exact Hrun|].
  destruct (writes_in_request_order (fun z : Z => z) true chromosome_genes
              demo_tes [50; 20] chromosome_names self sink Hrun)
    as (Hj & Hlen).
  split; [exact Hj|]. split; [exact Hlen|].
  by_reset Hrun. repeat split; vm_compute; reflexivity.
Defined.
